(** * Verification of the review bot's diff-anchor and suggestion-mapping code

    Shallow embedding of [src/review_bot/main.py] (and of the batched poster
    [create_review_with_comments] of [src/.github/review_bot/main.py]).
    Python strings are modelled as Rocq [string]s over ASCII; the Python
    string primitives the code uses ([splitlines], [strip], [lower], [in],
    [startswith]) and its regular expressions are written out below on that
    alphabet.  Python dicts, which keep insertion order and are iterated by
    the code, are ordered association lists.  Line numbers are Python ints,
    modelled as [Z]. *)

From Stdlib Require Import ZArith Lia List String Ascii Bool Sorted Permutation.
Import ListNotations.
Local Open Scope string_scope.
Local Open Scope list_scope.
Local Open Scope Z_scope.

Notation "a +s+ b" := (String.append a b) (at level 60, right associativity).

(** ** Characters and strings (Python [str] over ASCII) *)

Module Py.

Definition code (c : ascii) : Z := Z.of_nat (nat_of_ascii c).

Definition chr (n : nat) : string := String (ascii_of_nat n) EmptyString.

Definition NL : string := chr 10.

(** [str.isspace] and the regex class [\s] on ASCII. *)
Definition is_space (c : ascii) : bool :=
  let n := code c in ((9 <=? n) && (n <=? 13)) || ((28 <=? n) && (n <=? 32)).

(** [\d] on ASCII. *)
Definition is_digit (c : ascii) : bool :=
  let n := code c in (48 <=? n) && (n <=? 57).

Definition is_alpha (c : ascii) : bool :=
  let n := code c in ((65 <=? n) && (n <=? 90)) || ((97 <=? n) && (n <=? 122)).

(** [\w] on ASCII. *)
Definition is_word (c : ascii) : bool :=
  is_alpha c || is_digit c || Ascii.eqb c "_"%char.

(** [str.lower] on ASCII. *)
Definition lower_char (c : ascii) : ascii :=
  let n := nat_of_ascii c in
  if (65 <=? n)%nat && (n <=? 90)%nat then ascii_of_nat (n + 32) else c.

Fixpoint lower (s : string) : string :=
  match s with
  | EmptyString => EmptyString
  | String c s' => String (lower_char c) (lower s')
  end.

(** [s.startswith(p)]: returns the rest of [s] after [p]. *)
Fixpoint strip_prefix (p s : string) : option string :=
  match p, s with
  | EmptyString, _ => Some s
  | String a p', String b s' => if Ascii.eqb a b then strip_prefix p' s' else None
  | String _ _, EmptyString => None
  end.

Definition startswith (s p : string) : bool :=
  match strip_prefix p s with Some _ => true | None => false end.

(** [sub in s]. *)
Fixpoint contains (sub s : string) : bool :=
  startswith s sub ||
  match s with
  | EmptyString => false
  | String _ s' => contains sub s'
  end.

Fixpoint lstrip (s : string) : string :=
  match s with
  | String c s' => if is_space c then lstrip s' else s
  | EmptyString => EmptyString
  end.

Definition rev_string (s : string) : string :=
  string_of_list_ascii (rev (list_ascii_of_string s)).

Definition rstrip (s : string) : string := rev_string (lstrip (rev_string s)).

Definition strip (s : string) : string := rstrip (lstrip s).

(** Line boundaries of [str.splitlines] on ASCII:
    \n, \r, \r\n, \v, \f, \x1c, \x1d, \x1e. *)
Definition is_linebreak (c : ascii) : bool :=
  let n := code c in
  (n =? 10) || (n =? 13) || (n =? 11) || (n =? 12) || ((28 <=? n) && (n <=? 30)).

(** [s.splitlines()]: [cur] is the line being read, in reverse. *)
Fixpoint splitlines_aux (s : string) (cur : list ascii) : list string :=
  match s with
  | EmptyString =>
      match cur with [] => [] | _ => [string_of_list_ascii (rev cur)] end
  | String c s' =>
      if is_linebreak c then
        let rest :=
          if (code c =? 13) then
            match s' with
            | String d s'' => if (code d =? 10) then s'' else s'
            | EmptyString => s'
            end
          else s' in
        string_of_list_ascii (rev cur) :: splitlines_aux rest []
      else splitlines_aux s' (c :: cur)
  end.

Definition splitlines (s : string) : list string := splitlines_aux s [].

(** ["sep".join(xs)]. *)
Fixpoint join (sep : string) (xs : list string) : string :=
  match xs with
  | [] => EmptyString
  | [x] => x
  | x :: xs' => x +s+ sep +s+ join sep xs'
  end.

(** [s[:n]]. *)
Definition take (n : nat) (s : string) : string := substring 0 n s.

(** Longest prefix of ASCII digits, and the rest ([\d+] is greedy). *)
Fixpoint span_digits (s : string) : string * string :=
  match s with
  | String c s' =>
      if is_digit c then let '(d, r) := span_digits s' in (String c d, r)
      else (EmptyString, s)
  | EmptyString => (EmptyString, EmptyString)
  end.

(** [int(d)] for a string of ASCII digits. *)
Fixpoint digits_value_aux (s : string) (acc : Z) : Z :=
  match s with
  | EmptyString => acc
  | String c s' => digits_value_aux s' (acc * 10 + (code c - 48))
  end.

Definition int_of_digits (s : string) : Z := digits_value_aux s 0.

End Py.

Import Py.

(** ** [diff_anchor_lines] (main.py, lines 92-107) *)

(** [re.match(r"@@ -\d+(?:,\d+)? \+(\d+)", ln)] and [int(m.group(1))].
    The digit runs are followed by non-digits, so the match is deterministic:
    the optional [,\d+] group is taken exactly when a comma followed by a
    digit comes next. *)
Definition hunk_header (ln : string) : option Z :=
  match strip_prefix "@@ -" ln with
  | None => None
  | Some r =>
      let '(d1, r1) := span_digits r in
      if String.eqb d1 EmptyString then None else
      let r2 :=
        match r1 with
        | String c r' =>
            if Ascii.eqb c ","%char then
              let '(d2, r'') := span_digits r' in
              if String.eqb d2 EmptyString then r1 else r''
            else r1
        | EmptyString => r1
        end in
      match strip_prefix " +" r2 with
      | None => None
      | Some r3 =>
          let '(d3, _) := span_digits r3 in
          if String.eqb d3 EmptyString then None else Some (int_of_digits d3)
      end
  end.

(** The branch of the loop body a diff line takes. *)
Inductive line_kind := HunkHeader (start : Z) | AddLine | CtxLine | OtherLine.

Definition first_char_in (ln : string) (set : string) : bool :=
  match ln with
  | String c _ => contains (String c EmptyString) set
  | EmptyString => false
  end.

Definition classify (ln : string) : line_kind :=
  match hunk_header ln with
  | Some h => HunkHeader h
  | None =>
      if startswith ln "+" && negb (startswith ln "+++") then AddLine
      else if startswith ln " " ||
              (negb (String.eqb ln EmptyString) && negb (first_char_in ln "+-@"))
      then CtxLine
      else OtherLine   (* a removal line, a '+++'/'---' header or '@...' *)
  end.

(** Loop state [(adds, ctx, head)]. *)
Definition diff_step (st : list Z * list Z * Z) (ln : string) : list Z * list Z * Z :=
  let '(adds, ctx, head) := st in
  match classify ln with
  | HunkHeader h => (adds, ctx, h)
  | AddLine => (adds ++ [head], ctx, head + 1)
  | CtxLine => (adds, ctx ++ [head], head + 1)
  | OtherLine => (adds, ctx, head)
  end.

Definition or_one (l : list Z) : list Z :=
  match l with [] => [1] | _ => l end.

Definition diff_anchor_lines (patch : string) : list Z :=
  if String.eqb patch EmptyString then [1] else
  let '(adds, ctx, _) := fold_left diff_step (splitlines patch) ([], [], 1) in
  or_one (adds ++ ctx).

(** The candidates of a diff in diff order, each tagged with the kind of
    line it comes from: the spec's AnchorCandidate list before sorting. *)
Inductive confidence := ADDED | CONTEXT.

Definition trace_step (st : list (confidence * Z) * Z) (ln : string)
  : list (confidence * Z) * Z :=
  let '(tr, head) := st in
  match classify ln with
  | HunkHeader h => (tr, h)
  | AddLine => (tr ++ [(ADDED, head)], head + 1)
  | CtxLine => (tr ++ [(CONTEXT, head)], head + 1)
  | OtherLine => (tr, head)
  end.

Definition diff_trace (patch : string) : list (confidence * Z) :=
  fst (fold_left trace_step (splitlines patch) ([], 1)).

Definition lines_of (k : confidence) (tr : list (confidence * Z)) : list Z :=
  map snd (filter (fun p => match fst p, k with
                            | ADDED, ADDED | CONTEXT, CONTEXT => true
                            | _, _ => false end) tr).

(** ** [extract_source_sections] (main.py, lines 165-181) *)

(** Case-insensitive [startswith] (the pattern is compiled with [re.I]). *)
Fixpoint strip_prefix_ci (p s : string) : option string :=
  match p, s with
  | EmptyString, _ => Some s
  | String a p', String b s' =>
      if Ascii.eqb (lower_char a) (lower_char b) then strip_prefix_ci p' s' else None
  | String _ _, EmptyString => None
  end.

Definition strip_suffix (suf s : string) : option string :=
  option_map rev_string (strip_prefix (rev_string suf) (rev_string s)).

(** [SECTION_TAG.match(line)] and [m.group(1).strip()] for
    [r"^\s*#\s*---\s*section:\s*(.+?)\s*---\s*$"] with [re.I].
    After ["section:"], the rest [R] matches [\s*(.+?)\s*---\s*$] exactly
    when [R] without its trailing whitespace is [X ++ "---"] with [X]
    non-empty (a line holds no newline, so [.] matches every character);
    [X] is then the group with whitespace around it, so the stripped title
    is [strip X]. *)
Definition section_tag (line : string) : option string :=
  match strip_prefix "#" (lstrip line) with
  | None => None
  | Some r1 =>
      match strip_prefix "---" (lstrip r1) with
      | None => None
      | Some r2 =>
          match strip_prefix_ci "section:" (lstrip r2) with
          | None => None
          | Some r3 =>
              match strip_suffix "---" (rstrip r3) with
              | Some (String c x) => Some (strip (String c x))
              | _ => None
              end
          end
      end
  end.

(** [marks]: [(title, i)] for every marker line, [i] counted from [start]. *)
Fixpoint section_marks (lines : list string) (i : Z) : list (string * Z) :=
  match lines with
  | [] => []
  | line :: rest =>
      match section_tag line with
      | Some title => (title, i) :: section_marks rest (i + 1)
      | None => section_marks rest (i + 1)
      end
  end.

(** [spans]: a marker's section ends before the next marker, the last one
    at the last line [n]. *)
Fixpoint section_spans (marks : list (string * Z)) (n : Z) : list (string * Z * Z) :=
  match marks with
  | [] => []
  | (title, start) :: rest =>
      let end_ := match rest with (_, next) :: _ => next - 1 | [] => n end in
      (title, start, end_) :: section_spans rest n
  end.

Definition extract_source_sections (text : string) : list (string * Z * Z) :=
  let lines := splitlines text in
  match section_spans (section_marks lines 1) (Z.of_nat (List.length lines)) with
  | [] => [("entire-file", 1, Z.of_nat (List.length lines))]
  | spans => spans
  end.

Definition span_start (sp : string * Z * Z) : Z := let '(_, s, _) := sp in s.
Definition span_end (sp : string * Z * Z) : Z := let '(_, _, e) := sp in e.

(** ** [static_suggestions_for_section] (main.py, lines 183-233) *)

(** [\s*] followed by the character [c]. *)
Definition ws_then (c : ascii) (s : string) : bool :=
  match lstrip s with String d _ => Ascii.eqb d c | EmptyString => false end.

(** [re.search(r"\b" + name + r"\s*\(", line)] for a [name] starting with a
    word character: [prev] is the character before the current position. *)
Fixpoint search_call (name : string) (prev : option ascii) (s : string) : bool :=
  (negb (match prev with Some p => is_word p | None => false end) &&
   match strip_prefix name s with Some r => ws_then "("%char r | None => false end)
  || match s with
     | EmptyString => false
     | String c s' => search_call name (Some c) s'
     end.

(** [re.search(r"except\s+Exception\s*:", line)]. *)
Definition except_at (s : string) : bool :=
  match strip_prefix "except" s with
  | Some (String c r) =>
      is_space c &&
      match strip_prefix "Exception" (lstrip r) with
      | Some r' => ws_then ":"%char r'
      | None => false
      end
  | _ => false
  end.

Fixpoint search_except (s : string) : bool :=
  except_at s || match s with EmptyString => false | String _ s' => search_except s' end.

(** A multi-line Python literal: every line followed by a newline. *)
Definition unlines (xs : list string) : string := String.concat EmptyString (map (fun x => x +s+ NL) xs).

Definition md_eval (path : string) : string :=
  unlines ["## " +s+ path; "### Replace unsafe eval() with ast.literal_eval";
           "Using `eval` is a code execution risk. Prefer `ast.literal_eval` with error handling.";
           EmptyString; "```suggestion"; "try:"; "    import ast";
           "    return ast.literal_eval(src)"; "except (ValueError, SyntaxError):";
           "    return {}"; "```"].

(** The source has a non-ASCII dash after [SafeLoader]; written ["-"] here. *)
Definition md_yaml (path : string) : string :=
  unlines ["## " +s+ path; "### Use yaml.safe_load";
           "Avoid `yaml.load` without SafeLoader-use `yaml.safe_load`.";
           EmptyString; "```suggestion"; "import yaml"; "return yaml.safe_load(text)"; "```"].

Definition md_except (path : string) : string :=
  unlines ["## " +s+ path; "### Catch specific exceptions";
           "Catching `Exception` hides real failures.";
           EmptyString; "```suggestion"; "except FileNotFoundError:"; "    return {}"; "```"].

Definition md_open (path : string) : string :=
  unlines ["## " +s+ path; "### Use a context manager for file I/O"; EmptyString;
           "```suggestion"; "with open(path, 'r', encoding='utf-8') as f:";
           "    data = f.read()"; "```"].

(** A match: [(markdown, line, start_line)]. *)
Definition suggestion := (string * Z * option Z)%type.

(** The four checks of the loop body, in order, on one line [line] at [idx];
    [text] is the whole section. *)
Definition rule_eval (line : string) : bool := search_call "eval" None line.
Definition rule_yaml (text : list string) (line : string) : bool :=
  contains "yaml.load" line && negb (contains "SafeLoader" (String.concat EmptyString text)).
Definition rule_except (line : string) : bool := search_except line.
Definition rule_open (text : list string) (line : string) : bool :=
  search_call "open" None line && negb (existsb (contains "with open") text).

Definition line_suggestions (path : string) (text : list string) (line : string) (idx : Z)
  : list suggestion :=
  (if rule_eval line then [(md_eval path, idx, Some idx)] else []) ++
  (if rule_yaml text line then [(md_yaml path, idx, None)] else []) ++
  (if rule_except line then [(md_except path, idx, None)] else []) ++
  (if rule_open text line then [(md_open path, idx, None)] else []).

(** [for idx, line in enumerate(text, start)]. *)
Fixpoint static_loop (path : string) (text : list string) (rest : list string) (idx : Z)
  : list suggestion :=
  match rest with
  | [] => []
  | line :: rest' => line_suggestions path text line idx ++ static_loop path text rest' (idx + 1)
  end.

Definition static_suggestions_for_section (path : string) (text : list string) (start : Z)
  : list suggestion :=
  static_loop path text text start.

(** ** [split_llm_parts] (main.py, lines 129-162) *)

(** Python dicts: insertion-ordered association lists; assigning an existing
    key replaces its value in place. *)
Fixpoint dict_get {V : Type} (k : string) (d : list (string * V)) : option V :=
  match d with
  | [] => None
  | (k', v) :: d' => if String.eqb k k' then Some v else dict_get k d'
  end.

Fixpoint dict_set {V : Type} (k : string) (v : V) (d : list (string * V)) : list (string * V) :=
  match d with
  | [] => [(k, v)]
  | (k', v') :: d' => if String.eqb k k' then (k, v) :: d' else (k', v') :: dict_set k v d'
  end.

(** Maximal prefix of whitespace and the rest. *)
Fixpoint span_space (s : string) : string * string :=
  match s with
  | String c s' =>
      if is_space c then let '(w, r) := span_space s' in (String c w, r)
      else (EmptyString, s)
  | EmptyString => (EmptyString, EmptyString)
  end.

Definition endswith (s suf : string) : bool :=
  match strip_suffix suf s with Some _ => true | None => false end.

(** [FILE_H.match(L)] and [m.group(1).strip()] for [r"^##\s+(.+\.py)\s*$"],
    [L] a stripped line.  After ["##"], [W] is the run of whitespace and [R]
    the rest.  [\s+] gives back whitespace to the group only when [R] alone
    is too short for [.+\.py]: the group is [R] when [R] ends in [".py"] and
    has at least 4 characters, and one whitespace character followed by [R]
    when [R] is [".py"] and [W] has at least 2 characters.  A stripped line
    has no trailing whitespace, so [\s*$] matches only at the end. *)
Definition file_heading (L : string) : option string :=
  match strip_prefix "##" L with
  | None => None
  | Some r =>
      let '(w, R) := span_space r in
      if (1 <=? String.length w)%nat && endswith R ".py" then
        if (4 <=? String.length R)%nat then Some (strip R)
        else if (2 <=? String.length w)%nat && String.eqb R ".py" then Some (strip R)
        else None
      else None
  end.

(** [PART_H.match(L)] for [r"^###\s+(.+)\s*$"]: whitespace after ["###"],
    then at least one more character (possibly given back by [\s+]). *)
Definition part_heading (L : string) : bool :=
  match strip_prefix "###" L with
  | None => false
  | Some r =>
      let '(w, R) := span_space r in
      (1 <=? String.length w)%nat &&
      (negb (String.eqb R EmptyString) || (2 <=? String.length w)%nat)
  end.

(** First loop: the file blocks, as [(cur, buf)] state over the lines. *)
Definition block_flush (sections : list (string * list string)) (cur : option string)
    (buf : list string) : list (string * list string) :=
  match cur, buf with
  | Some c, _ :: _ => if String.eqb c EmptyString then sections else dict_set c buf sections
  | _, _ => sections
  end.

Definition block_step (st : list (string * list string) * option string * list string)
    (line : string) : list (string * list string) * option string * list string :=
  let '(sections, cur, buf) := st in
  match file_heading (strip line) with
  | Some title => (block_flush sections cur buf, Some title, [line])
  | None =>
      match cur with
      | Some c => if String.eqb c EmptyString then (sections, cur, buf)
                  else (sections, cur, buf ++ [line])
      | None => (sections, cur, buf)
      end
  end.

Definition file_blocks (md : string) : list (string * list string) :=
  let '(sections, cur, buf) := fold_left block_step (splitlines md) ([], None, []) in
  block_flush sections cur buf.

(** Second loop: the parts of one block, as [(parts, curp)] state.  A line
    before the first sub-heading is appended to a fresh list
    [(curp if curp else [])] and so is not kept. *)
Definition part_step (st : list (list string) * list string) (ln : string)
  : list (list string) * list string :=
  let '(parts, curp) := st in
  if part_heading (strip ln) then
    ((match curp with [] => parts | _ => parts ++ [curp] end), [ln])
  else (parts, match curp with [] => [] | _ => curp ++ [ln] end).

Definition block_parts (key : list string) : list string :=
  let '(parts, curp) := fold_left part_step key ([], []) in
  let parts := match curp with [] => parts | _ => parts ++ [curp] end in
  map (fun p => strip (join NL p)) (match parts with [] => [key] | _ => parts end).

Definition placeholder_part (path : string) : string :=
  "## " +s+ path +s+ NL +s+ "_No explicit suggestions from model._".

(** A changed file, as [list_changed_files] builds it. *)
Record file_item := { path : string; patch : string; content : string }.

Definition lower_keys (sections : list (string * list string)) : list (string * string) :=
  fold_left (fun d k => dict_set (lower k) k d) (map fst sections) [].

Definition per_file_step (sections : list (string * list string))
    (per : list (string * list string)) (f : file_item) : list (string * list string) :=
  let p := path f in
  let key :=
    match dict_get p sections with
    | Some (x :: xs) => Some (x :: xs)
    | _ =>
        match dict_get (lower p) (lower_keys sections) with
        | Some k => dict_get k sections
        | None => dict_get EmptyString sections
        end
    end in
  match key with
  | Some ((_ :: _) as key) => dict_set p (block_parts key) per
  | _ => dict_set p [placeholder_part p] per
  end.

Definition split_llm_parts (md : string) (files : list file_item) : list (string * list string) :=
  fold_left (per_file_step (file_blocks md)) files [].

(** ** [ensure_actionable_parts] (main.py, lines 236-289) *)

(** [SUG_RE.search(part)] for [r"```suggestion\b"] with [re.I]: the last
    letter is a word character, so [\b] needs a non-word character or the
    end of the string next. *)
Fixpoint has_suggestion (s : string) : bool :=
  match strip_prefix_ci "```suggestion" s with
  | Some (String c _) => negb (is_word c)
  | Some EmptyString => true
  | None => false
  end
  || match s with EmptyString => false | String _ s' => has_suggestion s' end.

(** [lines[line - 1] if 1 <= line <= len(lines) else ""]. *)
Definition current_line (lines : list string) (line : Z) : string :=
  if (1 <=? line) && (line <=? Z.of_nat (List.length lines))
  then nth (Z.to_nat (line - 1)) lines EmptyString else EmptyString.

(** [new_line]: the current line (or ["#"] when blank) tagged for the bot. *)
Definition fabricated_line (lines : list string) (line : Z) : string :=
  let current := current_line lines line in
  (if String.eqb (strip current) EmptyString then "#" else current) +s+
  (if contains "review-bot" current then EmptyString else "  # review-bot").

Definition first_anchor (anchors : list Z) : Z :=
  match anchors with a :: _ => a | [] => 1 end.

(** Step 1, one document part: anchored at [anchors[0]], made actionable. *)
Definition llm_part (lines : list string) (anchors : list Z) (part : string) : suggestion :=
  let line := first_anchor anchors in
  let part :=
    if has_suggestion part then part
    else part +s+ NL +s+ NL +s+ "```suggestion" +s+ NL +s+ fabricated_line lines line
              +s+ NL +s+ "```" in
  (part, line, None).

(** [min(anchors, key=lambda a: abs(a - t))]: the first element of least
    key (a later element replaces the best one only when strictly closer). *)
Fixpoint min_by_distance (t best : Z) (rest : list Z) : Z :=
  match rest with
  | [] => best
  | a :: rest' =>
      if Z.abs (a - t) <? Z.abs (best - t) then min_by_distance t a rest'
      else min_by_distance t best rest'
  end.

Definition nearest_anchor (anchors : list Z) (t : Z) : Z :=
  match anchors with a :: rest => min_by_distance t a rest | [] => 1 end.

(** Step 2, one rule match: exact line when it is a candidate, otherwise the
    nearest candidate without a range start. *)
Definition place_static (anchors : list Z) (s : suggestion) : suggestion :=
  let '(md, suggested_line, start_line) := s in
  if existsb (Z.eqb suggested_line) anchors then (md, suggested_line, start_line)
  else (md, nearest_anchor anchors suggested_line, None).

(** [lst[a:b]] for [0 <= a], [0 <= b]. *)
Definition py_slice {A : Type} (a b : Z) (l : list A) : list A :=
  firstn (Z.to_nat b - Z.to_nat a) (skipn (Z.to_nat a) l).

Definition static_parts (p : string) (text : string) (anchors : list Z) : list suggestion :=
  let lines := splitlines text in
  flat_map (fun sec =>
              let '(_, s, e) := sec in
              map (place_static anchors)
                  (static_suggestions_for_section p (py_slice (s - 1) e lines) s))
           (extract_source_sections text).

(** The parts of one file.  The patch is the file's entry of the pull
    request's file list, which the code fetches again as [patch_by_path]. *)
Definition ensure_actionable_file (f : file_item) (llm : list string) : list suggestion :=
  let text := content f in
  let lines := splitlines text in
  let anchors := diff_anchor_lines (patch f) in
  let parts := map (llm_part lines anchors) llm ++ static_parts (path f) text anchors in
  match parts with
  | [] =>
      let line := first_anchor anchors in
      [("## " +s+ path f +s+ NL +s+ "_No issues detected._" +s+ NL +s+ NL +s+
        "```suggestion" +s+ NL +s+ fabricated_line lines line +s+ NL +s+ "```", line, None)]
  | _ => parts
  end.

Definition ensure_actionable_parts (files : list file_item) (per_file_from_llm : list (string * list string))
  : list (string * list suggestion) :=
  fold_left (fun out f =>
               dict_set (path f)
                 (ensure_actionable_file f
                    (match dict_get (path f) per_file_from_llm with Some l => l | None => [] end))
                 out)
            files [].

(** ** Posting (main.py, lines 110-127 and 292-330) *)

#[local] Set Warnings "-abstract-large-number".
Definition BODY_CAP : nat := 65000.

(** The requests the run sends to the code-hosting API. *)
Inductive request :=
| SummaryReview (body : string)
| InlineComment (p : string) (line : Z) (start_line : option Z) (body : string)
| IssueComment (body : string)
| BatchReview (body : string) (comments : list (string * Z * string)).

(** [post_inline_comment]'s payload: the body cut to the cap, the range
    start kept only when it does not exceed the line. *)
Definition inline_request (p : string) (s : suggestion) : request :=
  let '(body_md, line, start_line) := s in
  InlineComment p line
    (match start_line with
     | Some st => if st <=? line then Some st else None
     | None => None
     end)
    (take BODY_CAP body_md).

(** [actionable.items()] flattened to [(path, part)] in posting order. *)
Definition posting_order (actionable : list (string * list suggestion)) : list (string * suggestion) :=
  flat_map (fun '(p, parts) => map (fun s => (p, s)) parts) actionable.

(** The answers of the API: [accepted n] tells whether the [n]-th inline post
    is accepted ([gh] returns) or rejected ([gh] raises [SystemExit], which
    [post_inline_comment] turns into [False]). *)
Definition post_step (accepted : nat -> bool) (st : list request * nat * nat)
    (ps : string * suggestion) : list request * nat * nat :=
  let '(reqs, posted, attempt) := st in
  let '(p, s) := ps in
  (reqs ++ [inline_request p s], (if accepted attempt then S posted else posted), S attempt).

(** The inline requests and the counter [posted] after the loop. *)
Definition post_inline_all (accepted : nat -> bool) (actionable : list (string * list suggestion))
  : list request * nat :=
  let '(reqs, posted, _) := fold_left (post_step accepted) (posting_order actionable) ([], 0%nat, 0%nat) in
  (reqs, posted).

Definition HR : string := NL +s+ NL +s+ "---" +s+ NL +s+ NL.

(** The source's header has a robot emoji after ["###"]; written ["[bot]"]
    here, on the ASCII alphabet. *)
Definition fallback_header : string := "### [bot] Review Bot (fallback)".

(** [f"## {p}\n" + "\n\n---\n\n".join(md for md, _, _ in arr)]. *)
Definition file_digest (p : string) (arr : list suggestion) : string :=
  "## " +s+ p +s+ NL +s+ join HR (map (fun s => let '(md, _, _) := s in md) arr).

Definition fallback_body (actionable : list (string * list suggestion)) : string :=
  join (NL +s+ NL) (fallback_header :: map (fun '(p, arr) => file_digest p arr) actionable).

(** Lines 316-328: the inline posts, then the fallback note when none was
    accepted.  It starts once the summary review is posted ([gh] raises
    otherwise and the run stops before it). *)
Definition post_phase (accepted : nat -> bool) (actionable : list (string * list suggestion))
  : list request :=
  let '(reqs, posted) := post_inline_all accepted actionable in
  if Nat.eqb posted 0 then reqs ++ [IssueComment (take BODY_CAP (fallback_body actionable))]
  else reqs.

Definition no_changes_note : string := "[bot] Review Bot: No Python file changes detected.".

Definition summary_text (conf_url : string) : string :=
  "### [bot] Review Bot" +s+ NL +s+ "**Spec:** " +s+ conf_url +s+ NL +s+ NL +s+
  "Actionable suggestions are posted per section. Security issues like `eval()` are " +s+
  "anchored to the exact changed line with a multi-line fix when possible.".

(** [main] from the changed files on: [review_md] is the model's review
    document, [conf_url] the configured spec URL. *)
Definition review_bot_run (files : list file_item) (review_md conf_url : string)
    (accepted : nat -> bool) : list request :=
  match files with
  | [] => [IssueComment no_changes_note]
  | _ =>
      let llm_parts := split_llm_parts review_md files in
      let actionable := ensure_actionable_parts files llm_parts in
      SummaryReview (take BODY_CAP (summary_text conf_url)) :: post_phase accepted actionable
  end.

(** [first_added_line_from_patch] of the batched driver
    ([src/.github/review_bot/main.py], lines 71-90). *)
Fixpoint first_added_aux (lines : list string) (head : Z) : Z :=
  match lines with
  | [] => Z.max 1 head
  | line :: rest =>
      match hunk_header line with
      | Some h => first_added_aux rest h
      | None =>
          if startswith line "+" && negb (startswith line "+++") then head
          else
            let head :=
              if negb (startswith line "-") && negb (startswith line "@@") &&
                 negb (startswith line "+++") && negb (startswith line "---")
              then head + 1 else head in
            first_added_aux rest head
      end
  end.

Definition first_added_line_from_patch (patch : string) : Z :=
  if String.eqb patch EmptyString then 1 else first_added_aux (splitlines patch) 1.

(** [create_review_with_comments] (lines 93-118): one review carrying the
    summary and one comment per suggested Python file, at most 50. *)
Definition create_review_with_comments (files : list file_item)
    (summary_md : string) (file_suggestions : list (string * string)) : request :=
  let comments :=
    flat_map (fun f =>
                match dict_get (path f) file_suggestions with
                | Some body =>
                    if endswith (path f) ".py"
                    then [(path f, first_added_line_from_patch (patch f), take BODY_CAP body)]
                    else []
                | None => []
                end) files in
  BatchReview (take BODY_CAP summary_md) (firstn 50 comments).

Definition request_bodies (r : request) : list string :=
  match r with
  | SummaryReview b | InlineComment _ _ _ b | IssueComment b => [b]
  | BatchReview b cs => b :: map (fun c => let '(_, _, body) := c in body) cs
  end.

Definition request_comment_count (r : request) : nat :=
  match r with
  | SummaryReview _ | IssueComment _ => 0
  | InlineComment _ _ _ _ => 1
  | BatchReview _ cs => List.length cs
  end.

(** ** [list_changed_files] (main.py, lines 75-90) and [build_prompt]
    ([src/review_bot/llm.py], lines 34-53) *)

(** An entry of the pull request's file list as the API returns it.  The
    [status] field is kept as the text an f-string shows for it. *)
Record gh_file := { filename : string; gh_patch : option string; gh_status : string }.

(** The Python files of the list, in order, with [patch] defaulting to [""];
    [fetch] stands for [fetch_file_content] (a network read) on the path.
    Each item is paired with its [status]. *)
Definition list_changed_files (meta : list gh_file) (fetch : string -> string)
  : list (file_item * string) :=
  flat_map (fun g =>
              if endswith (filename g) ".py"
              then [({| path := filename g;
                        patch := match gh_patch g with Some p => p | None => EmptyString end;
                        content := fetch (filename g) |}, gh_status g)]
              else []) meta.

Definition PROMPT_CAP : nat := 20000.

(** The parts one changed file adds to the prompt; an empty [patch] or
    [content] is falsy and adds nothing. *)
Definition prompt_file_parts (f : file_item) (status : string) : list string :=
  ["## " +s+ path f +s+ " (" +s+ status +s+ ")" +s+ NL] ++
  (if String.eqb (patch f) EmptyString then []
   else ["```diff" +s+ NL +s+ take PROMPT_CAP (patch f) +s+ NL +s+ "```"]) ++
  (if String.eqb (content f) EmptyString then []
   else [NL +s+ "<current file snapshot: " +s+ path f +s+ ">" +s+ NL +s+ "```python" +s+ NL +s+
         take PROMPT_CAP (content f) +s+ NL +s+ "```" +s+ NL]).

Definition review_task : string :=
  NL +s+ "# Review Task" +s+ NL +s+
  "- For each file, list issues as bullets." +s+ NL +s+
  "- Cite SPEC when applicable." +s+ NL +s+
  "- Provide **GitHub suggestion blocks** for exact replacements." +s+ NL +s+
  "- Keep suggestions minimal and safe." +s+ NL +s+
  "- Output markdown." +s+ NL.

Definition build_prompt (spec_text : string) (files : list (file_item * string)) : string :=
  join NL (["# SPEC (from Confluence)" +s+ NL; take PROMPT_CAP (strip spec_text);
            NL +s+ NL +s+ "# CHANGED FILES (unified diffs + snapshots)" +s+ NL] ++
           flat_map (fun fs => prompt_file_parts (fst fs) (snd fs)) files ++ [review_task]).

(** The line [def join_words(words: list[str] = [], sep: str = " ") -> str:]
    of [src/test.py] (line 79), whose parameter [words] has a mutable default. *)
Definition join_words_def_line : string :=
  "def join_words(words: list[str] = [], sep: str = " +s+ chr 34 +s+ " " +s+ chr 34 +s+ ") -> str:".

(** ** Concrete inputs *)

(** The two-marker text [x / # --- section: a --- / y /
    # --- section: b --- / z]. *)
Definition two_marker_text : string :=
  "x" +s+ NL +s+ "# --- section: a ---" +s+ NL +s+ "y" +s+ NL +s+
  "# --- section: b ---" +s+ NL +s+ "z".

Definition intro_then_part_doc : string :=
  "## a.py" +s+ NL +s+ "intro" +s+ NL +s+ "### P1" +s+ NL +s+ "body".

Definition file_a : file_item := {| path := "a.py"; patch := EmptyString; content := EmptyString |}.

Definition two_candidate_file : file_item :=
  {| path := "a.py"; patch := "@@ -1,1 +1,2 @@" +s+ NL +s+ " a" +s+ NL +s+ "+b";
     content := EmptyString |}.

Definition two_document_parts : list string :=
  ["### P1" +s+ NL +s+ "```suggestion" +s+ NL +s+ "x" +s+ NL +s+ "```";
   "### P2" +s+ NL +s+ "```suggestion" +s+ NL +s+ "y" +s+ NL +s+ "```"].

(** The diff [@@ -1 +3 @@ / a / @@ -5 +5 @@ / +b]: candidates [[5; 3]]
    (the added line 5 before the context line 3), and an [eval(] at line 4
    of the file, equally far from both. *)
Definition tie_file : file_item :=
  {| path := "a.py";
     patch := "@@ -1 +3 @@" +s+ NL +s+ " a" +s+ NL +s+ "@@ -5 +5 @@" +s+ NL +s+ "+b";
     content := "x" +s+ NL +s+ "x" +s+ NL +s+ "x" +s+ NL +s+ "eval(s)" |}.

Definition one_file_actionable : list (string * list suggestion) :=
  [("a.py", [(md_eval "a.py", 5, None); ("### P1", 2, None)])].

Definition bodies_capped (r : request) : Prop :=
  Forall (fun b => (String.length b <= BODY_CAP)%nat) (request_bodies r).

Definition is_inline_comment (r : request) : bool :=
  match r with InlineComment _ _ _ _ => true | _ => false end.

(** A changed file with 51 lines [eval(s)] and no patch text. *)
Definition many_evals_file : file_item :=
  {| path := "a.py"; patch := EmptyString; content := unlines (repeat "eval(s)" 51) |}.

(** A deleted file whose last line had no final newline. *)
Definition deleted_file_patch : string :=
  "@@ -1 +0,0 @@" +s+ NL +s+ "-x" +s+ NL +s+ "\ No newline at end of file".

(** A new file [x = eval(s) / y = 1], both lines added. *)
Definition eval_file : file_item :=
  {| path := "a.py";
     patch := "@@ -0,0 +1,2 @@" +s+ NL +s+ "+x = eval(s)" +s+ NL +s+ "+y = 1";
     content := "x = eval(s)" +s+ NL +s+ "y = 1" |}.


(** A review document whose only heading names [a.py] in another case. *)
Definition mixed_case_doc : string := "## A.py" +s+ NL +s+ "text".

(** A pull request changing [a.py] (as [eval_file]) and [README.md]. *)
Definition sample_meta : list gh_file :=
  [{| filename := "a.py"; gh_patch := Some (patch eval_file); gh_status := "added" |};
   {| filename := "README.md"; gh_patch := None; gh_status := "added" |}].

Definition sample_fetch (p : string) : string := content eval_file.

(** What [ensure_actionable_file] guarantees for each part it returns. *)
Definition part_ok (anchors : list Z) (s : suggestion) : Prop :=
  let '(body, line, start_line) := s in
  has_suggestion body = true /\ In line anchors /\
  (start_line = None \/ start_line = Some line).


(* ================================================================== *)
(** * Properties *)

(** ** Anchor candidates *)

Lemma lines_of_app (k : confidence) (t1 t2 : list (confidence * Z)) :
  lines_of k (t1 ++ t2) = lines_of k t1 ++ lines_of k t2.
Proof. unfold lines_of. rewrite filter_app, map_app. reflexivity. Qed.

(** The [(adds, ctx, head)] loop and the tagged trace agree line by line. *)
Lemma diff_fold_trace (lines : list string) (tr : list (confidence * Z)) (h : Z) :
  fold_left diff_step lines (lines_of ADDED tr, lines_of CONTEXT tr, h) =
  let '(tr', h') := fold_left trace_step lines (tr, h) in
  (lines_of ADDED tr', lines_of CONTEXT tr', h').
Proof.
  revert tr h. induction lines as [|ln lines IH]; intros tr h; cbn [fold_left].
  - reflexivity.
  - unfold diff_step at 2, trace_step at 2.
    destruct (classify ln) as [h'| | |]; cbn iota beta.
    + apply IH.
    + rewrite <- IH, !lines_of_app. cbn [lines_of filter map fst snd].
      rewrite app_nil_r. reflexivity.
    + rewrite <- IH, !lines_of_app. cbn [lines_of filter map fst snd].
      rewrite app_nil_r. reflexivity.
    + apply IH.
Qed.

Lemma or_one_not_nil (l : list Z) : or_one l <> [].
Proof. destruct l; discriminate. Qed.

(** C1: an empty diff text gives exactly [1]; for every diff text the list is
    non-empty and consists of the candidates of the addition lines, in diff
    order, followed by those of the context lines, in diff order (with the
    fallback [1] when the diff has neither kind of line). *)
Theorem diff_anchor_lines_added_before_context :
  diff_anchor_lines EmptyString = [1] /\
  forall patch : string,
    diff_anchor_lines patch <> [] /\
    diff_anchor_lines patch =
      or_one (lines_of ADDED (diff_trace patch) ++ lines_of CONTEXT (diff_trace patch)).
Proof.
  split; [reflexivity|]. intros patch.
  assert (E : diff_anchor_lines patch =
      or_one (lines_of ADDED (diff_trace patch) ++ lines_of CONTEXT (diff_trace patch))).
  { unfold diff_anchor_lines, diff_trace.
    destruct (String.eqb_spec patch EmptyString) as [->|_]; [reflexivity|].
    pose proof (diff_fold_trace (splitlines patch) [] 1) as F.
    cbn [lines_of filter map] in F.
    rewrite F. destruct (fold_left trace_step (splitlines patch) ([], 1)). reflexivity. }
  split; [rewrite E; apply or_one_not_nil | exact E].
Qed.

(** ** The rule catalogue *)

Lemma static_loop_origin (path : string) (text rest : list string) (idx : Z) (m : suggestion) :
  In m (static_loop path text rest idx) ->
  exists k line,
    nth_error rest k = Some line /\
    let '(md, l, st) := m in
    l = idx + Z.of_nat k /\
    ((md = md_eval path /\ st = Some l /\ rule_eval line = true) \/
     (md = md_yaml path /\ st = None /\ rule_yaml text line = true) \/
     (md = md_except path /\ st = None /\ rule_except line = true) \/
     (md = md_open path /\ st = None /\ rule_open text line = true)).
Proof.
  revert idx. induction rest as [|line rest IH]; intros idx Hin; [contradiction|].
  simpl in Hin. apply in_app_or in Hin as [Hin|Hin].
  - exists 0%nat, line. split; [reflexivity|]. destruct m as [[md l] st].
    unfold line_suggestions in Hin.
    destruct (rule_eval line) eqn:E1, (rule_yaml text line) eqn:E2,
             (rule_except line) eqn:E3, (rule_open text line) eqn:E4;
      simpl in Hin;
      repeat match goal with
             | H : _ \/ _ |- _ => destruct H as [H|H]
             | H : (_, _, _) = (_, _, _) |- _ => injection H as <- <- <-
             | H : False |- _ => contradiction
             end;
      split; try lia; tauto.
  - destruct (IH (idx + 1) Hin) as (k & line' & Hk & Hm).
    exists (S k), line'. split; [exact Hk|]. destruct m as [[md l] st].
    destruct Hm as [Hl Hr]. split; [lia | exact Hr].
Qed.

Lemma static_loop_silent (path : string) (text rest : list string) (idx : Z) :
  (forall line, In line rest ->
     rule_eval line = false /\ rule_yaml text line = false /\
     rule_except line = false /\ rule_open text line = false) ->
  static_loop path text rest idx = [].
Proof.
  revert idx. induction rest as [|line rest IH]; intros idx Hall; [reflexivity|].
  simpl. unfold line_suggestions.
  destruct (Hall line (or_introl eq_refl)) as (-> & -> & -> & ->).
  apply IH. intros l Hl. apply Hall. right. exact Hl.
Qed.

(** C5 (as amended): the catalogue has four checks, no more.  Every match of
    a section is produced at one of its lines by [eval(], by [yaml.load]
    without [SafeLoader] in the section, by [except Exception:], or by
    [open(] without any [with open] in the section, and carries that line; a
    section in which no line triggers one of them yields no match. *)
Theorem static_suggestions_four_rules (path : string) (text : list string) (start : Z) :
  (forall m, In m (static_suggestions_for_section path text start) ->
   exists k line,
     nth_error text k = Some line /\
     let '(md, l, st) := m in
     l = start + Z.of_nat k /\
     ((md = md_eval path /\ st = Some l /\ rule_eval line = true) \/
      (md = md_yaml path /\ st = None /\ rule_yaml text line = true) \/
      (md = md_except path /\ st = None /\ rule_except line = true) \/
      (md = md_open path /\ st = None /\ rule_open text line = true))) /\
  ((forall line, In line text ->
      rule_eval line = false /\ rule_yaml text line = false /\
      rule_except line = false /\ rule_open text line = false) ->
   static_suggestions_for_section path text start = []).
Proof.
  split.
  - intros m Hin. exact (static_loop_origin path text text start m Hin).
  - intros Hall. apply static_loop_silent. exact Hall.
Qed.

(** C5: the section made of the mutable-default definition of [src/test.py]
    yields no match: the catalogue has no mutable-default-argument check. *)
Lemma static_suggestions_miss_mutable_default :
  static_suggestions_for_section "src/test.py" [join_words_def_line] 79 = [].
Proof. vm_compute. reflexivity. Qed.

(** ** Source sections *)

Lemma section_marks_sorted (lines : list string) (i : Z) :
  Forall (fun m => i <= snd m < i + Z.of_nat (List.length lines)) (section_marks lines i) /\
  StronglySorted (fun a b => snd a < snd b) (section_marks lines i).
Proof.
  revert i. induction lines as [|line lines IH]; intros i; simpl.
  - split; constructor.
  - destruct (IH (i + 1)) as [Hb Hs].
    assert (Hb' : Forall (fun m => i <= snd m < i + Z.of_nat (S (List.length lines)))
                    (section_marks lines (i + 1))).
    { eapply Forall_impl; [|exact Hb]. intros m Hm. simpl in Hm. lia. }
    destruct (section_tag line).
    + split.
      * constructor; [simpl; lia | exact Hb'].
      * constructor; [exact Hs|]. eapply Forall_impl; [|exact Hb]. intros m Hm. simpl in *. lia.
    + split; [exact Hb' | exact Hs].
Qed.

Lemma section_spans_starts (marks : list (string * Z)) (n : Z) :
  map span_start (section_spans marks n) = map snd marks.
Proof.
  induction marks as [|[t s] rest IH]; simpl; [reflexivity|]. f_equal. exact IH.
Qed.

Lemma section_spans_length (marks : list (string * Z)) (n : Z) :
  List.length (section_spans marks n) = List.length marks.
Proof.
  rewrite <- (length_map span_start), section_spans_starts, length_map. reflexivity.
Qed.

Lemma section_spans_ordered (marks : list (string * Z)) (n : Z) :
  StronglySorted (fun a b => snd a < snd b) marks ->
  Forall (fun m => 1 <= snd m <= n) marks ->
  Forall (fun sp => 1 <= span_start sp <= span_end sp) (section_spans marks n) /\
  ForallOrdPairs (fun a b => span_end a < span_start b) (section_spans marks n).
Proof.
  induction marks as [|[t s] rest IH]; intros Hs Hb; simpl.
  - split; constructor.
  - apply StronglySorted_inv in Hs as [Hs Hlt]. inversion Hb as [|? ? Hm Hb']; subst.
    destruct (IH Hs Hb') as [IHb IHo]. simpl in Hm.
    split; [constructor; [|exact IHb] | constructor; [|exact IHo]].
    + destruct rest as [|[t' s'] rest']; simpl; [lia|].
      inversion Hlt as [|? ? Hs' _]; simpl in Hs'. lia.
    + apply Forall_forall. intros b Hb_in.
      assert (Hst : In (span_start b) (map snd rest)).
      { rewrite <- section_spans_starts with (n := n). apply in_map. exact Hb_in. }
      apply in_map_iff in Hst as [m [Hmb Hm_in]].
      destruct rest as [|[t' s'] rest']; [contradiction|]. simpl.
      destruct Hm_in as [<-|Hm_in]; simpl in Hmb; [lia|].
      apply StronglySorted_inv in Hs as [_ Hlt'].
      rewrite Forall_forall in Hlt'. specialize (Hlt' m Hm_in). simpl in Hlt'. lia.
Qed.

Lemma splitlines_aux_not_nil (s : string) (c : ascii) (cur : list ascii) :
  splitlines_aux s (c :: cur) <> [].
Proof.
  revert c cur. induction s as [|d s IH]; intros c cur; simpl.
  - discriminate.
  - destruct (is_linebreak d); [discriminate | apply IH].
Qed.

Lemma splitlines_not_nil (s : string) : s <> EmptyString -> splitlines s <> [].
Proof.
  destruct s as [|c s]; intros H; [contradiction|].
  unfold splitlines. simpl. destruct (is_linebreak c); [discriminate|].
  apply splitlines_aux_not_nil.
Qed.

(** C7 (as amended): with [N] marker lines, [N >= 1], the sections are
    exactly [N], pairwise disjoint and increasing, each with
    [1 <= startLine <= endLine]; with no marker there is exactly one section,
    [("entire-file", 1, number of lines)]; every section of a non-empty text
    satisfies [1 <= startLine <= endLine], while the empty text gets the
    single section [(1, 0)]. *)
Theorem extract_source_sections_spans (text : string) :
  let lines := splitlines text in
  let N := List.length (section_marks lines 1) in
  ((1 <= N)%nat ->
     List.length (extract_source_sections text) = N /\
     ForallOrdPairs (fun a b => span_end a < span_start b) (extract_source_sections text) /\
     Forall (fun sp => 1 <= span_start sp <= span_end sp) (extract_source_sections text)) /\
  (N = 0%nat ->
     extract_source_sections text = [("entire-file", 1, Z.of_nat (List.length lines))]) /\
  (text <> EmptyString ->
     Forall (fun sp => 1 <= span_start sp <= span_end sp) (extract_source_sections text)) /\
  extract_source_sections EmptyString = [("entire-file", 1, 0)].
Proof.
  intros lines N.
  destruct (section_marks_sorted lines 1) as [Hb Hs].
  assert (Hb1 : Forall (fun m => 1 <= snd m <= Z.of_nat (List.length lines))
                  (section_marks lines 1)).
  { eapply Forall_impl; [|exact Hb]. intros m Hm. cbv beta in *. lia. }
  destruct (section_spans_ordered _ (Z.of_nat (List.length lines)) Hs Hb1) as [Hf Ho].
  unfold extract_source_sections. fold lines.
  destruct (section_marks lines 1) as [|m marks] eqn:Em; subst N; simpl List.length.
  - split; [intros H; lia|]. split; [intros _; reflexivity|].
    split; [|reflexivity].
    intros Hne. constructor; [|constructor]. simpl.
    destruct lines as [|l ls] eqn:El; [exfalso; apply (splitlines_not_nil text Hne); exact El|].
    simpl. lia.
  - destruct m as [t s].
    assert (Hl := section_spans_length ((t, s) :: marks) (Z.of_nat (List.length lines))).
    revert Hf Ho Hl. cbn [section_spans List.length]. intros Hf Ho Hl.
    split; [intros _; split; [exact Hl | split; assumption]|].
    split; [intros H; lia|].
    split; [intros _; exact Hf | reflexivity].
Qed.

(** C7: the empty text gets a section with [startLine > endLine]. *)
Lemma extract_source_sections_empty_text :
  ~ (forall text, Forall (fun sp => 1 <= span_start sp <= span_end sp)
                         (extract_source_sections text)).
Proof.
  intros H. specialize (H EmptyString).
  change (extract_source_sections EmptyString) with [("entire-file", 1, 0)] in H.
  inversion H as [|? ? Hx _]. cbn in Hx. lia.
Qed.

Lemma extract_source_sections_spans_witness :
  (1 <= List.length (section_marks (splitlines two_marker_text) 1))%nat /\
  List.length (extract_source_sections two_marker_text) = 2%nat /\
  Forall (fun sp => 1 <= span_start sp <= span_end sp) (extract_source_sections two_marker_text).
Proof.
  assert (H1 : (1 <= List.length (section_marks (splitlines two_marker_text) 1))%nat)
    by (vm_compute; lia).
  destruct (extract_source_sections_spans two_marker_text) as (Hn & _ & Hne & _).
  destruct (Hn H1) as (Hlen & _ & Hf).
  split; [exact H1|]. split; [|exact Hf].
  rewrite Hlen. vm_compute. reflexivity.
Defined.

(** ** The per-file parts of the review document *)

Lemma dict_set_keys {V : Type} (k : string) (v : V) (d : list (string * V)) (x : string) :
  In x (map fst (dict_set k v d)) <-> x = k \/ In x (map fst d).
Proof.
  induction d as [|[k' v'] d IH]; simpl.
  - intuition congruence.
  - destruct (String.eqb_spec k k') as [<-|Hne]; simpl.
    + intuition congruence.
    + rewrite IH. intuition congruence.
Qed.

Lemma dict_set_values {V : Type} (P : V -> Prop) (k : string) (v : V) (d : list (string * V)) :
  P v -> Forall (fun kv => P (snd kv)) d -> Forall (fun kv => P (snd kv)) (dict_set k v d).
Proof.
  intros Hv Hd. induction Hd as [|[k' v'] d Hkv Hd IH]; simpl.
  - constructor; [exact Hv | constructor].
  - destruct (String.eqb k k'); constructor; try assumption.
Qed.

Lemma block_parts_not_nil (key : list string) : block_parts key <> [].
Proof.
  unfold block_parts. destruct (fold_left part_step key ([], [])) as [parts curp].
  cbv zeta.
  destruct (match curp with [] => parts | _ => parts ++ [curp] end) as [|x xs];
    discriminate.
Qed.

Lemma per_file_step_shape (sections per : list (string * list string)) (f : file_item) :
  (forall x, In x (map fst (per_file_step sections per f)) <-> x = path f \/ In x (map fst per)) /\
  (Forall (fun kv => snd kv <> []) per ->
   Forall (fun kv => snd kv <> []) (per_file_step sections per f)).
Proof.
  unfold per_file_step.
  destruct (match dict_get (path f) sections with
            | Some (x :: xs) => Some (x :: xs)
            | _ => match dict_get (lower (path f)) (lower_keys sections) with
                   | Some k => dict_get k sections
                   | None => dict_get EmptyString sections
                   end
            end) as [[|l key]|].
  all: split; [intros x; apply dict_set_keys|].
  all: intros Hper; apply (dict_set_values (fun v => v <> [])); [|exact Hper].
  all: solve [discriminate | apply block_parts_not_nil].
Qed.

Lemma split_fold_shape (sections : list (string * list string)) (files : list file_item)
    (per : list (string * list string)) :
  (forall x, In x (map fst (fold_left (per_file_step sections) files per)) <->
             In x (map fst per) \/ In x (map path files)) /\
  (Forall (fun kv => snd kv <> []) per ->
   Forall (fun kv => snd kv <> []) (fold_left (per_file_step sections) files per)).
Proof.
  revert per. induction files as [|f files IH]; intros per; simpl.
  - split; [tauto | exact (fun H => H)].
  - destruct (per_file_step_shape sections per f) as [Hk Hv].
    destruct (IH (per_file_step sections per f)) as [IHk IHv].
    split.
    + intros x. rewrite IHk, Hk. intuition congruence.
    + intros H. apply IHv, Hv, H.
Qed.

(** C10: the keys of [split_llm_parts md files] are exactly the paths of
    [files] (a heading naming another path yields no entry), and every value
    is a non-empty list of parts. *)
Theorem split_llm_parts_keys_and_parts (md : string) (files : list file_item) :
  (forall p, In p (map fst (split_llm_parts md files)) <-> In p (map path files)) /\
  Forall (fun kv => snd kv <> []) (split_llm_parts md files).
Proof.
  unfold split_llm_parts.
  destruct (split_fold_shape (file_blocks md) files []) as [Hk Hv].
  split.
  - intros p. rewrite Hk. simpl. tauto.
  - apply Hv. constructor.
Qed.

(** C4: the text of a block before its first sub-heading (here the heading
    line [## a.py] and the line [intro]) is not kept as a leading part. *)
Lemma split_llm_parts_drops_preamble :
  split_llm_parts intro_then_part_doc [file_a] = [("a.py", ["### P1" +s+ NL +s+ "body"])].
Proof. vm_compute. reflexivity. Qed.

(** ** Anchoring the parts of a file *)

(** C2 (as amended): the [i]-th document part of a file is its [i]-th part,
    anchored at the first candidate of the file's anchor list ([1] when the
    list is empty) with no range start, whatever [i] is; a part that already
    has a suggestion block is kept as it is. *)
Theorem document_parts_at_first_anchor (f : file_item) (llm : list string)
    (i : nat) (part : string) :
  nth_error llm i = Some part ->
  exists body,
    nth_error (ensure_actionable_file f llm) i =
      Some (body, first_anchor (diff_anchor_lines (patch f)), None) /\
    (has_suggestion part = true -> body = part).
Proof.
  intros Hi. unfold ensure_actionable_file.
  set (anchors := diff_anchor_lines (patch f)).
  set (lines := splitlines (content f)).
  set (st := static_parts (path f) (content f) anchors).
  destruct llm as [|p0 llm']; [destruct i; discriminate|].
  cbn [map app].
  change (llm_part lines anchors p0 :: map (llm_part lines anchors) llm' ++ st)
    with (map (llm_part lines anchors) (p0 :: llm') ++ st).
  rewrite nth_error_app1.
  2: { rewrite length_map. apply nth_error_Some. rewrite Hi. discriminate. }
  rewrite nth_error_map, Hi. simpl.
  unfold llm_part.
  exists (if has_suggestion part then part
          else part +s+ NL +s+ NL +s+ "```suggestion" +s+ NL +s+
               fabricated_line lines (first_anchor anchors) +s+ NL +s+ "```").
  split; [reflexivity|]. intros ->. reflexivity.
Qed.

(** C2: the second document part of a file whose candidates are [[2; 1]] is
    anchored at [2], not at the second candidate [1]. *)
Lemma document_parts_not_positional :
  ~ (forall (f : file_item) (llm : list string) (i : nat) (part : string) (cand : Z),
       nth_error llm i = Some part ->
       nth_error (diff_anchor_lines (patch f)) i = Some cand ->
       exists body, nth_error (ensure_actionable_file f llm) i = Some (body, cand, None)).
Proof.
  intros H.
  destruct (H two_candidate_file two_document_parts 1%nat
              ("### P2" +s+ NL +s+ "```suggestion" +s+ NL +s+ "y" +s+ NL +s+ "```") 1
              eq_refl ltac:(vm_compute; reflexivity)) as [body Hb].
  vm_compute in Hb. discriminate.
Qed.

Lemma min_by_distance_spec (t : Z) (rest : list Z) :
  forall pre best mid,
    (forall b, In b (pre ++ best :: mid) -> Z.abs (best - t) <= Z.abs (b - t)) ->
    (forall b, In b pre -> Z.abs (best - t) < Z.abs (b - t)) ->
    exists pre' a post',
      pre ++ best :: mid ++ rest = pre' ++ a :: post' /\
      min_by_distance t best rest = a /\
      (forall b, In b (pre ++ best :: mid ++ rest) -> Z.abs (a - t) <= Z.abs (b - t)) /\
      (forall b, In b pre' -> Z.abs (a - t) < Z.abs (b - t)).
Proof.
  induction rest as [|x rest IH]; intros pre best mid Hle Hlt; simpl.
  - exists pre, best, mid. rewrite app_nil_r. auto.
  - destruct (Z.ltb_spec (Z.abs (x - t)) (Z.abs (best - t))) as [Hx|Hx].
    + destruct (IH (pre ++ best :: mid) x [])
        as (pre' & a & post' & Heq & Ha & Hle' & Hlt').
      * intros b Hb. apply in_app_or in Hb as [Hb|[<-|[]]]; [|lia].
        specialize (Hle b Hb). lia.
      * intros b Hb. specialize (Hle b Hb). lia.
      * assert (E : pre ++ best :: mid ++ x :: rest = (pre ++ best :: mid) ++ x :: [] ++ rest)
          by (rewrite <- app_assoc; reflexivity).
        exists pre', a, post'. rewrite E. auto.
    + destruct (IH pre best (mid ++ [x]))
        as (pre' & a & post' & Heq & Ha & Hle' & Hlt').
      * intros b Hb. apply in_app_or in Hb as [Hb|[<-|Hb]].
        -- apply Hle. apply in_or_app. left. exact Hb.
        -- lia.
        -- apply in_app_or in Hb as [Hb|[<-|[]]]; [|lia].
           apply Hle. apply in_or_app. right. right. exact Hb.
      * exact Hlt.
      * assert (E : pre ++ best :: mid ++ x :: rest = pre ++ best :: (mid ++ [x]) ++ rest)
          by (rewrite <- app_assoc; reflexivity).
        exists pre', a, post'. rewrite E. auto.
Qed.

(** C3 (as amended): a rule match whose line is not a candidate is anchored
    at a candidate of least distance to that line, without a range start;
    among equally distant candidates the one that comes first in the
    candidate list is taken (every candidate before it is strictly
    farther). *)
Theorem place_static_nearest (anchors : list Z) (md : string) (target : Z) (start_line : option Z) :
  anchors <> [] ->
  existsb (Z.eqb target) anchors = false ->
  exists pre a post,
    anchors = pre ++ a :: post /\
    place_static anchors (md, target, start_line) = (md, a, None) /\
    (forall b, In b anchors -> Z.abs (a - target) <= Z.abs (b - target)) /\
    (forall b, In b pre -> Z.abs (a - target) < Z.abs (b - target)).
Proof.
  intros Hne Hnot. destruct anchors as [|a0 rest]; [contradiction|].
  destruct (min_by_distance_spec target rest [] a0 [])
    as (pre & a & post & Heq & Ha & Hle & Hlt).
  - intros b [<-|[]]. lia.
  - intros b [].
  - exists pre, a, post. simpl in Heq. split; [exact Heq|].
    split; [|split; [exact Hle | exact Hlt]].
    unfold place_static. rewrite Hnot. unfold nearest_anchor. rewrite Ha. reflexivity.
Qed.

Lemma place_static_nearest_witness :
  existsb (Z.eqb 4) [5; 3] = false /\
  exists pre a post,
    [5; 3] = pre ++ a :: post /\
    place_static [5; 3] (EmptyString, 4, None) = (EmptyString, a, None) /\
    (forall b, In b [5; 3] -> Z.abs (a - 4) <= Z.abs (b - 4)) /\
    (forall b, In b pre -> Z.abs (a - 4) < Z.abs (b - 4)).
Proof.
  split; [reflexivity|].
  apply (place_static_nearest [5; 3] EmptyString 4 None); [discriminate | reflexivity].
Defined.

(** C3: on a tie the rule match goes to line 5, not to the smaller line 3. *)
Lemma nearest_tie_not_smaller_line :
  diff_anchor_lines (patch tie_file) = [5; 3] /\
  ensure_actionable_file tie_file [] = [(md_eval "a.py", 5, None)].
Proof. split; vm_compute; reflexivity. Qed.

(** Witness for C2. *)
Lemma document_parts_at_first_anchor_witness :
  exists body,
    nth_error (ensure_actionable_file two_candidate_file two_document_parts) 1 =
      Some (body, first_anchor (diff_anchor_lines (patch two_candidate_file)), None) /\
    (has_suggestion ("### P2" +s+ NL +s+ "```suggestion" +s+ NL +s+ "y" +s+ NL +s+ "```") = true ->
     body = "### P2" +s+ NL +s+ "```suggestion" +s+ NL +s+ "y" +s+ NL +s+ "```").
Proof.
  apply (document_parts_at_first_anchor two_candidate_file two_document_parts 1). reflexivity.
Defined.

(** ** Posting *)

Lemma append_empty_r (s : string) : s +s+ EmptyString = s.
Proof. induction s as [|c s IH]; simpl; [reflexivity | rewrite IH; reflexivity]. Qed.

Lemma append_assoc_str (a b c : string) : (a +s+ b) +s+ c = a +s+ (b +s+ c).
Proof. induction a as [|x a IH]; simpl; [reflexivity | rewrite IH; reflexivity]. Qed.

Lemma strip_prefix_append (p y : string) : strip_prefix p (p +s+ y) = Some y.
Proof.
  induction p as [|c p IH]; simpl; [reflexivity|]. rewrite Ascii.eqb_refl. exact IH.
Qed.

Lemma contains_middle (sub x y : string) : contains sub (x +s+ sub +s+ y) = true.
Proof.
  induction x as [|c x IH]; simpl.
  - destruct sub as [|a sub']; simpl; [destruct y; reflexivity|].
    unfold startswith.
    change (strip_prefix (String a sub') (String a (sub' +s+ y)))
      with (strip_prefix (String a sub') (String a sub' +s+ y)).
    rewrite strip_prefix_append. reflexivity.
  - rewrite IH. apply orb_true_r.
Qed.

Lemma join_in (sep : string) (xs : list string) (e : string) :
  In e xs -> exists x y, join sep xs = x +s+ e +s+ y.
Proof.
  induction xs as [|x0 xs IH]; intros Hin; [contradiction|].
  destruct xs as [|x1 xs'].
  - destruct Hin as [<-|[]]. exists EmptyString, EmptyString.
    simpl. rewrite append_empty_r. reflexivity.
  - destruct Hin as [<-|Hin].
    + exists EmptyString, (sep +s+ join sep (x1 :: xs')). reflexivity.
    + destruct (IH Hin) as (a & b & Hab).
      exists (x0 +s+ sep +s+ a), b.
      change (join sep (x0 :: x1 :: xs')) with (x0 +s+ sep +s+ join sep (x1 :: xs')).
      rewrite Hab, !append_assoc_str. reflexivity.
Qed.

Lemma contains_join (sep : string) (xs : list string) (e : string) :
  In e xs -> contains e (join sep xs) = true.
Proof.
  intros Hin. destruct (join_in sep xs e Hin) as (x & y & ->). apply contains_middle.
Qed.

Lemma take_length (n : nat) (s : string) : (String.length (take n s) <= n)%nat.
Proof.
  unfold take. revert s. induction n as [|n IH]; intros s; simpl.
  - destruct s; simpl; lia.
  - destruct s as [|c s]; simpl; [lia|]. specialize (IH s). lia.
Qed.

Lemma post_fold (accepted : nat -> bool) (l : list (string * suggestion))
    (reqs : list request) (posted attempt : nat) :
  fold_left (post_step accepted) l (reqs, posted, attempt) =
  (reqs ++ map (fun ps => let '(p, s) := ps in inline_request p s) l,
   (posted + List.length (filter accepted (seq attempt (List.length l))))%nat,
   (attempt + List.length l)%nat).
Proof.
  revert reqs posted attempt.
  induction l as [|[p s] l IH]; intros reqs posted attempt; simpl.
  - rewrite app_nil_r. f_equal; [f_equal|]; lia.
  - rewrite IH, <- app_assoc. simpl.
    destruct (accepted attempt); simpl; f_equal; [f_equal|..|f_equal|]; lia.
Qed.

Lemma take_prefix (n : nat) (s : string) : exists rest, s = take n s +s+ rest.
Proof.
  unfold take. revert s. induction n as [|n IH]; intros s.
  - exists s. destruct s; reflexivity.
  - destruct s as [|c s]; [exists EmptyString; reflexivity|].
    destruct (IH s) as [rest Hr]. exists rest. simpl. rewrite <- Hr. reflexivity.
Qed.

Lemma file_digest_contains (p : string) (arr : list suggestion) (md : string) (l : Z) (st : option Z) :
  In (md, l, st) arr -> contains md (file_digest p arr) = true.
Proof.
  intros Hin. unfold file_digest.
  assert (Hm : In md (map (fun s => let '(md, _, _) := s in md) arr)).
  { apply in_map_iff. exists (md, l, st). split; [reflexivity | exact Hin]. }
  destruct (join_in HR _ md Hm) as (x & y & ->).
  rewrite <- !append_assoc_str. rewrite (append_assoc_str _ md y). apply contains_middle.
Qed.

(** C8: with [posted] the number of accepted inline posts, the loop sends one
    inline request per part; when [posted] is 0 exactly one more request
    follows, the fallback note, whose body is the 65,000-character prefix of
    a text holding, for every file, its block ["## p"] with every part's
    body joined by a horizontal rule; when [posted] is not 0 nothing
    follows. *)
Theorem post_phase_fallback_note (accepted : nat -> bool) (actionable : list (string * list suggestion)) :
  let order := posting_order actionable in
  let inline := map (fun ps => let '(p, s) := ps in inline_request p s) order in
  let posted := List.length (filter accepted (seq 0 (List.length order))) in
  Forall (fun r => match r with InlineComment _ _ _ _ => True | _ => False end) inline /\
  (posted = 0%nat ->
     post_phase accepted actionable =
       inline ++ [IssueComment (take BODY_CAP (fallback_body actionable))]) /\
  (posted <> 0%nat -> post_phase accepted actionable = inline) /\
  (forall p arr, In (p, arr) actionable ->
     contains (file_digest p arr) (fallback_body actionable) = true) /\
  (forall p arr md l st, In (md, l, st) arr -> contains md (file_digest p arr) = true) /\
  (String.length (take BODY_CAP (fallback_body actionable)) <= BODY_CAP)%nat /\
  (exists rest, fallback_body actionable = take BODY_CAP (fallback_body actionable) +s+ rest).
Proof.
  intros order inline posted.
  assert (Hpp : post_inline_all accepted actionable = (inline, posted)).
  { unfold post_inline_all. fold order. rewrite post_fold. reflexivity. }
  unfold post_phase. rewrite Hpp.
  split.
  { apply Forall_forall. intros r Hr. apply in_map_iff in Hr as [[p [[md l] st]] [<- _]].
    exact I. }
  split; [intros H; rewrite H; reflexivity|].
  split; [intros H; apply Nat.eqb_neq in H; rewrite H; reflexivity|].
  split.
  { intros p arr Hin. unfold fallback_body. apply contains_join. right.
    apply in_map_iff. exists (p, arr). split; [reflexivity | exact Hin]. }
  split; [exact file_digest_contains|].
  split; [apply take_length | apply take_prefix].
Qed.

Lemma post_phase_fallback_note_witness :
  (List.length (filter (fun _ => false)
                  (seq 0 (List.length (posting_order one_file_actionable)))) = 0)%nat /\
  post_phase (fun _ => false) one_file_actionable =
    map (fun ps => let '(p, s) := ps in inline_request p s) (posting_order one_file_actionable)
    ++ [IssueComment (take BODY_CAP (fallback_body one_file_actionable))].
Proof.
  split; [reflexivity|].
  destruct (post_phase_fallback_note (fun _ => false) one_file_actionable)
    as (_ & H0 & _). apply H0. reflexivity.
Defined.

Lemma inline_requests_capped (l : list (string * suggestion)) :
  Forall (fun r => bodies_capped r /\ (request_comment_count r <= 1)%nat)
         (map (fun ps => let '(p, s) := ps in inline_request p s) l).
Proof.
  apply Forall_forall. intros r Hr.
  apply in_map_iff in Hr as [[p [[md l'] st]] [<- _]]. simpl.
  split; [|lia]. constructor; [apply take_length | constructor].
Qed.

(** C9 (as amended): every body the bot sends is at most 65,000 characters;
    [review_bot/main.py] sends every comment in a request of its own (no
    request carries more than one comment) and the batched driver
    [create_review_with_comments] puts at most 50 comments in its review. *)
Theorem request_bodies_capped :
  (forall files review_md conf_url accepted,
     Forall (fun r => bodies_capped r /\ (request_comment_count r <= 1)%nat)
            (review_bot_run files review_md conf_url accepted)) /\
  (forall files summary_md file_suggestions,
     bodies_capped (create_review_with_comments files summary_md file_suggestions) /\
     (request_comment_count (create_review_with_comments files summary_md file_suggestions) <= 50)%nat).
Proof.
  split.
  - intros files review_md conf_url accepted. unfold review_bot_run.
    destruct files as [|f files].
    + constructor; [|constructor]. split; [|simpl; lia].
      constructor; [|constructor]. apply Nat.leb_le. vm_compute. reflexivity.
    + constructor.
      { split; [constructor; [apply take_length | constructor] | simpl; lia]. }
      unfold post_phase, post_inline_all. rewrite post_fold. simpl.
      destruct (Nat.eqb _ 0); [apply Forall_app; split|];
        try apply inline_requests_capped.
      constructor; [|constructor]. split; [|simpl; lia].
      constructor; [apply take_length | constructor].
  - intros files summary_md file_suggestions. unfold create_review_with_comments.
    set (cs := flat_map _ files). split.
    + constructor; [apply take_length|]. apply Forall_forall. intros b Hb.
      apply in_map_iff in Hb as [[[p l] b'] [<- Hc]].
      assert (Hc' : In (p, l, b') cs).
      { rewrite <- (firstn_skipn 50 cs). apply in_or_app. left. exact Hc. }
      apply in_flat_map in Hc' as (f & _ & Hf).
      destruct (dict_get (path f) file_suggestions); [|contradiction].
      destruct (endswith (path f) ".py"); [|contradiction].
      destruct Hf as [Hf|[]]. injection Hf as _ _ <-. apply take_length.
    + cbn [request_comment_count]. apply firstn_le_length.
Qed.

(** C9: with an empty review document, one run of [review_bot/main.py] posts
    52 inline comments (the placeholder part and 51 rule matches): the
    number of comments of a run is not capped at 50. *)
Lemma review_bot_run_comment_count_uncapped :
  ~ (forall files review_md conf_url accepted,
       (List.length (filter is_inline_comment
                       (review_bot_run files review_md conf_url accepted)) <= 50)%nat).
Proof.
  intros H. specialize (H [many_evals_file] EmptyString EmptyString (fun _ => true)).
  assert (E : List.length (filter is_inline_comment
                 (review_bot_run [many_evals_file] EmptyString EmptyString (fun _ => true))) = 52%nat)
    by (vm_compute; reflexivity).
  rewrite E in H. lia.
Qed.

(** ** Line 0 as a candidate *)

(** C6: the marker line ["\ No newline at end of file"] is taken as a
    context line, so the deleted file's candidate list is [[0]]. *)
Lemma diff_anchor_lines_line_zero :
  diff_anchor_lines deleted_file_patch = [0].
Proof. vm_compute. reflexivity. Qed.

(** Witness for C5. *)
Lemma static_suggestions_four_rules_witness :
  static_suggestions_for_section "src/test.py" [join_words_def_line] 79 = [] /\
  rule_eval join_words_def_line = false.
Proof.
  split; [|vm_compute; reflexivity].
  destruct (static_suggestions_four_rules "src/test.py" [join_words_def_line] 79) as [_ H].
  apply H. intros line [<-|[]]. vm_compute. repeat split.
Defined.

(* ================================================================== *)
(** * Further properties of the code *)

(** ** Every part is actionable and anchored on a candidate *)

Lemma strip_prefix_ci_append (p y : string) : strip_prefix_ci p (p +s+ y) = Some y.
Proof.
  induction p as [|c p IH]; simpl; [reflexivity|]. rewrite Ascii.eqb_refl. exact IH.
Qed.

Lemma has_suggestion_here (y : string) : has_suggestion ("```suggestion" +s+ NL +s+ y) = true.
Proof. reflexivity. Qed.

Lemma has_suggestion_app_l (x s : string) :
  has_suggestion s = true -> has_suggestion (x +s+ s) = true.
Proof.
  intros H. induction x as [|c x IH]; [exact H|].
  change (String c x +s+ s) with (String c (x +s+ s)).
  cbn [has_suggestion]. rewrite IH. apply orb_true_r.
Qed.

Lemma unlines_cons (x y : string) (rest : list string) :
  unlines (x :: y :: rest) = (x +s+ NL) +s+ unlines (y :: rest).
Proof. reflexivity. Qed.

Lemma rule_templates_actionable (p : string) :
  has_suggestion (md_eval p) = true /\ has_suggestion (md_yaml p) = true /\
  has_suggestion (md_except p) = true /\ has_suggestion (md_open p) = true.
Proof.
  unfold md_eval, md_yaml, md_except, md_open.
  repeat split; rewrite unlines_cons; apply has_suggestion_app_l; vm_compute; reflexivity.
Qed.

Lemma diff_anchor_lines_not_nil (p : string) : diff_anchor_lines p <> [].
Proof.
  unfold diff_anchor_lines. destruct (String.eqb p EmptyString); [discriminate|].
  destruct (fold_left diff_step (splitlines p) ([], [], 1)) as [[a c] h].
  apply or_one_not_nil.
Qed.

Lemma first_anchor_in (anchors : list Z) : anchors <> [] -> In (first_anchor anchors) anchors.
Proof. destruct anchors; [contradiction | left; reflexivity]. Qed.

Lemma nearest_anchor_in (anchors : list Z) (t : Z) :
  anchors <> [] -> In (nearest_anchor anchors t) anchors.
Proof.
  intros Hne. destruct anchors as [|a0 rest]; [contradiction|].
  destruct (min_by_distance_spec t rest [] a0 [])
    as (pre & a & post & Heq & Ha & _ & _).
  - intros b [<-|[]]. lia.
  - intros b [].
  - unfold nearest_anchor. rewrite Ha. simpl in Heq. rewrite Heq.
    apply in_or_app. right. left. reflexivity.
Qed.

Lemma static_parts_ok (p text : string) (anchors : list Z) (m : suggestion) :
  anchors <> [] -> In m (static_parts p text anchors) -> part_ok anchors m.
Proof.
  intros Hne Hin. unfold static_parts in Hin.
  apply in_flat_map in Hin as [[[t s] e] [_ Hin]].
  apply in_map_iff in Hin as [[[md sl] st] [<- Hin]].
  destruct (static_loop_origin _ _ _ _ _ Hin) as (k & line & _ & Hsl & Hmd).
  assert (Hmd' : has_suggestion md = true /\ (st = None \/ st = Some sl)).
  { destruct (rule_templates_actionable p) as (H1 & H2 & H3 & H4).
    destruct Hmd as [(-> & -> & _)|[(-> & -> & _)|[(-> & -> & _)|(-> & -> & _)]]]; auto. }
  destruct Hmd' as [Hs Hst].
  unfold place_static. destruct (existsb (Z.eqb sl) anchors) eqn:Ex.
  - apply existsb_exists in Ex as [x [Hx Heq]]. apply Z.eqb_eq in Heq. subst x.
    split; [exact Hs | split; [exact Hx | exact Hst]].
  - split; [exact Hs | split; [apply nearest_anchor_in; exact Hne | left; reflexivity]].
Qed.

(** Every part of a file's list is actionable, anchored on a candidate of the
    file's diff, and has no range start or one equal to its line. *)
Lemma ensure_actionable_file_parts_ok (f : file_item) (llm : list string) (m : suggestion) :
  In m (ensure_actionable_file f llm) -> part_ok (diff_anchor_lines (patch f)) m.
Proof.
  pose proof (diff_anchor_lines_not_nil (patch f)) as Hne.
  unfold ensure_actionable_file.
  set (anchors := diff_anchor_lines (patch f)) in *.
  set (lines := splitlines (content f)).
  intros Hin.
  assert (Hparts : forall m, In m (map (llm_part lines anchors) llm ++
                                     static_parts (path f) (content f) anchors) ->
                             part_ok anchors m).
  { intros m' Hm'. apply in_app_or in Hm' as [Hm'|Hm'].
    - apply in_map_iff in Hm' as [part [<- _]]. unfold llm_part, part_ok.
      split; [|split; [apply first_anchor_in; exact Hne | left; reflexivity]].
      destruct (has_suggestion part) eqn:Hp; [exact Hp|].
      apply has_suggestion_app_l, has_suggestion_app_l, has_suggestion_app_l.
      apply has_suggestion_here.
    - exact (static_parts_ok _ _ _ _ Hne Hm'). }
  destruct (map (llm_part lines anchors) llm ++ static_parts (path f) (content f) anchors)
    as [|m0 ms] eqn:Ep.
  - destruct Hin as [<-|[]]. unfold part_ok.
    split; [|split; [apply first_anchor_in; exact Hne | left; reflexivity]].
    do 6 apply has_suggestion_app_l. apply has_suggestion_here.
  - apply Hparts. exact Hin.
Qed.

(** X1: every part [ensure_actionable_parts] builds for a file contains a
    [```suggestion] block (case-insensitive, as [SUG_RE] matches it). *)
Theorem ensure_actionable_parts_actionable (f : file_item) (llm : list string)
    (body : string) (line : Z) (start_line : option Z) :
  In (body, line, start_line) (ensure_actionable_file f llm) -> has_suggestion body = true.
Proof. intros H. apply (ensure_actionable_file_parts_ok f llm _ H). Qed.

(** X2: every part is anchored at a line of the file's candidate list
    [diff_anchor_lines patch]. *)
Theorem ensure_actionable_parts_on_candidates (f : file_item) (llm : list string)
    (body : string) (line : Z) (start_line : option Z) :
  In (body, line, start_line) (ensure_actionable_file f llm) ->
  In line (diff_anchor_lines (patch f)).
Proof. intros H. apply (ensure_actionable_file_parts_ok f llm _ H). Qed.

(** X3: a part's range start is either absent or equal to its line (only an
    [eval(] match anchored on its own line keeps one). *)
Theorem ensure_actionable_parts_range_start (f : file_item) (llm : list string)
    (body : string) (line : Z) (start_line : option Z) :
  In (body, line, start_line) (ensure_actionable_file f llm) ->
  start_line = None \/ start_line = Some line.
Proof. intros H. apply (ensure_actionable_file_parts_ok f llm _ H). Qed.

(** ** Per-path dictionaries built file by file *)

Lemma dict_get_set_same {V : Type} (k : string) (v : V) (d : list (string * V)) :
  dict_get k (dict_set k v d) = Some v.
Proof.
  induction d as [|[k' v'] d IH]; simpl.
  - rewrite String.eqb_refl. reflexivity.
  - destruct (String.eqb_spec k k') as [<-|Hne]; simpl.
    + rewrite String.eqb_refl. reflexivity.
    + apply String.eqb_neq in Hne. rewrite Hne. exact IH.
Qed.

Lemma dict_get_set_other {V : Type} (k k' : string) (v : V) (d : list (string * V)) :
  k <> k' -> dict_get k (dict_set k' v d) = dict_get k d.
Proof.
  intros Hne. induction d as [|[k'' v'] d IH]; simpl.
  - apply String.eqb_neq in Hne. rewrite Hne. reflexivity.
  - destruct (String.eqb_spec k' k'') as [<-|Hne']; simpl.
    + apply String.eqb_neq in Hne. rewrite Hne. reflexivity.
    + destruct (String.eqb k k''); [reflexivity | exact IH].
Qed.

Lemma dict_set_in {V : Type} (k k' : string) (v v' : V) (d : list (string * V)) :
  In (k, v) (dict_set k' v' d) -> (k, v) = (k', v') \/ In (k, v) d.
Proof.
  induction d as [|[k'' v''] d IH]; simpl.
  - intros [H|[]]. left. congruence.
  - destruct (String.eqb k' k''); simpl.
    + intros [H|H]; [left; congruence | right; right; exact H].
    + intros [H|H]; [right; left; exact H|].
      destruct (IH H) as [H'|H']; [left; exact H' | right; right; exact H'].
Qed.

Section ByPath.
Context {V : Type} (step : list (string * V) -> file_item -> list (string * V)).
Hypothesis step_sets : forall d f, exists v, step d f = dict_set (path f) v d.

Lemma fold_by_path_other (p : string) (files : list file_item) (d : list (string * V)) :
  ~ In p (map path files) -> dict_get p (fold_left step files d) = dict_get p d.
Proof.
  revert d. induction files as [|f files IH]; intros d Hp; simpl; [reflexivity|].
  simpl in Hp. rewrite IH by tauto.
  destruct (step_sets d f) as [v ->]. apply dict_get_set_other. intuition congruence.
Qed.

Lemma fold_by_path_get (p : string) (vp : V) (files : list file_item) (d : list (string * V)) :
  (forall d f, path f = p -> step d f = dict_set p vp d) ->
  In p (map path files) -> dict_get p (fold_left step files d) = Some vp.
Proof.
  intros Hp. revert d. induction files as [|f files IH]; intros d Hin; simpl in *; [contradiction|].
  destruct (in_dec String.string_dec p (map path files)) as [Hi|Hni].
  - apply IH, Hi.
  - rewrite fold_by_path_other by exact Hni.
    destruct Hin as [Hf|Hi]; [|contradiction].
    rewrite (Hp d f Hf). apply dict_get_set_same.
Qed.

Lemma fold_by_path_shape (P : V -> Prop) (files : list file_item) (d : list (string * V)) :
  (forall d f, exists v, P v /\ step d f = dict_set (path f) v d) ->
  (forall x, In x (map fst (fold_left step files d)) <-> In x (map fst d) \/ In x (map path files)) /\
  (Forall (fun kv => P (snd kv)) d -> Forall (fun kv => P (snd kv)) (fold_left step files d)).
Proof.
  intros HP. revert d. induction files as [|f files IH]; intros d; simpl.
  - split; [tauto | exact (fun H => H)].
  - destruct (HP d f) as [v [Hv Hs]].
    destruct (IH (step d f)) as [IHk IHv].
    split.
    + intros x. rewrite IHk, Hs, dict_set_keys. intuition congruence.
    + intros H. apply IHv. rewrite Hs. apply dict_set_values; assumption.
Qed.
End ByPath.

Lemma ensure_actionable_file_not_nil (f : file_item) (llm : list string) :
  ensure_actionable_file f llm <> [].
Proof.
  unfold ensure_actionable_file.
  destruct (map _ llm ++ static_parts (path f) (content f) (diff_anchor_lines (patch f)));
    discriminate.
Qed.

(** X4: the keys of [ensure_actionable_parts files per] are exactly the paths
    of [files], and every file gets at least one part. *)
Theorem ensure_actionable_parts_keys_nonempty (files : list file_item)
    (per_file_from_llm : list (string * list string)) :
  (forall p, In p (map fst (ensure_actionable_parts files per_file_from_llm)) <->
             In p (map path files)) /\
  Forall (fun kv => snd kv <> []) (ensure_actionable_parts files per_file_from_llm).
Proof.
  unfold ensure_actionable_parts.
  destruct (fold_by_path_shape
              (fun out f => dict_set (path f) (ensure_actionable_file f
                 (match dict_get (path f) per_file_from_llm with Some l => l | None => [] end)) out)
              (fun v => v <> []) files []) as [Hk Hv].
  - intros d f. eexists. split; [apply ensure_actionable_file_not_nil | reflexivity].
  - split; [intros p; rewrite Hk; simpl; tauto | apply Hv; constructor].
Qed.

(** ** Looking up a file's block in the review document *)

Lemma file_blocks_no_heading (md : string) :
  Forall (fun ln => file_heading (strip ln) = None) (splitlines md) -> file_blocks md = [].
Proof.
  unfold file_blocks. intros H.
  assert (Hf : forall lines, Forall (fun ln => file_heading (strip ln) = None) lines ->
                 fold_left block_step lines ([], None, []) = ([], None, [])).
  { induction lines as [|ln lines IH]; intros Hl; [reflexivity|].
    inversion Hl as [|? ? Hln Hrest]; subst. simpl. unfold block_step at 1.
    rewrite Hln. apply IH, Hrest. }
  rewrite (Hf _ H). reflexivity.
Qed.

Lemma per_file_step_sets (sections : list (string * list string)) :
  forall d f, exists v, per_file_step sections d f = dict_set (path f) v d.
Proof.
  intros d f. unfold per_file_step.
  destruct (match dict_get (path f) sections with
            | Some (x :: xs) => Some (x :: xs)
            | _ => match dict_get (lower (path f)) (lower_keys sections) with
                   | Some k => dict_get k sections
                   | None => dict_get EmptyString sections
                   end
            end) as [[|l key]|]; eexists; reflexivity.
Qed.

(** X5: when no line of the review document is a file heading, every file
    gets the single placeholder part. *)
Theorem split_llm_parts_no_heading (md : string) (files : list file_item) (p : string) :
  Forall (fun ln => file_heading (strip ln) = None) (splitlines md) ->
  In p (map path files) ->
  dict_get p (split_llm_parts md files) = Some [placeholder_part p].
Proof.
  intros Hmd Hp. unfold split_llm_parts. rewrite (file_blocks_no_heading md Hmd).
  apply (fold_by_path_get _ (per_file_step_sets [])); [|exact Hp].
  intros d f <-. reflexivity.
Qed.

Lemma dict_get_in {V : Type} (k : string) (v : V) (d : list (string * V)) :
  dict_get k d = Some v -> In (k, v) d.
Proof.
  induction d as [|[k' v'] d IH]; simpl; [discriminate|].
  destruct (String.eqb_spec k k') as [<-|_]; [intros [= <-]; left; reflexivity|].
  intros H. right. exact (IH H).
Qed.

Lemma block_flush_nonempty (sections : list (string * list string)) (cur : option string)
    (buf : list string) :
  Forall (fun kv => snd kv <> []) sections ->
  Forall (fun kv => snd kv <> []) (block_flush sections cur buf).
Proof.
  intros H. unfold block_flush.
  destruct cur as [c|], buf as [|b bs]; try exact H.
  destruct (String.eqb c EmptyString); [exact H|].
  apply (dict_set_values (fun v => v <> [])); [discriminate | exact H].
Qed.

(** Every block of the document holds at least its heading line. *)
Lemma file_blocks_nonempty (md : string) : Forall (fun kv => snd kv <> []) (file_blocks md).
Proof.
  unfold file_blocks.
  assert (Hf : forall lines st,
             Forall (fun kv => snd kv <> []) (fst (fst st)) ->
             Forall (fun kv => snd kv <> []) (fst (fst (fold_left block_step lines st)))).
  { induction lines as [|ln lines IH]; intros [[sections cur] buf] Hs; [exact Hs|].
    simpl. apply IH. unfold block_step.
    destruct (file_heading (strip ln)); simpl.
    - apply block_flush_nonempty, Hs.
    - destruct cur as [c|]; [destruct (String.eqb c EmptyString)|]; exact Hs. }
  specialize (Hf (splitlines md) ([], None, []) (Forall_nil _)).
  destruct (fold_left block_step (splitlines md) ([], None, [])) as [[sections cur] buf].
  apply block_flush_nonempty, Hf.
Qed.

(** X6: a file whose exact path heads a block of the document gets the parts
    of that block. *)
Theorem split_llm_parts_exact_block (md : string) (files : list file_item) (p : string)
    (block : list string) :
  dict_get p (file_blocks md) = Some block -> In p (map path files) ->
  dict_get p (split_llm_parts md files) = Some (block_parts block).
Proof.
  intros Hb Hp. unfold split_llm_parts.
  assert (Hne : block <> []).
  { pose proof (file_blocks_nonempty md) as Hn. rewrite Forall_forall in Hn.
    exact (Hn _ (dict_get_in _ _ _ Hb)). }
  apply (fold_by_path_get _ (per_file_step_sets (file_blocks md))); [|exact Hp].
  intros d f Hf. unfold per_file_step. rewrite Hf, Hb.
  destruct block as [|x xs]; [contradiction | reflexivity].
Qed.

Lemma lower_keys_fold (keys : list string) (d0 : list (string * string)) (x : string) :
  dict_get x (fold_left (fun d k => dict_set (lower k) k d) keys d0) =
  match rev (filter (fun k => String.eqb (lower k) x) keys) with
  | k :: _ => Some k
  | [] => dict_get x d0
  end.
Proof.
  revert d0. induction keys as [|k keys IH]; intros d0; [reflexivity|].
  simpl. rewrite IH.
  destruct (String.eqb_spec (lower k) x) as [Hk|Hk]; simpl.
  - destruct (rev (filter (fun k => String.eqb (lower k) x) keys)) as [|k' ks]; simpl;
      [rewrite <- Hk, dict_get_set_same; reflexivity | reflexivity].
  - destruct (rev (filter (fun k => String.eqb (lower k) x) keys)); [|reflexivity].
    apply dict_get_set_other. intros ->. contradiction.
Qed.

(** X7: a file whose path heads no block of the document, but which matches
    some block headings up to case, gets the parts of the last such block in
    the order of the document's blocks. *)
Theorem split_llm_parts_case_insensitive (md : string) (files : list file_item) (p : string)
    (pre : list string) (k : string) (block : list string) :
  dict_get p (file_blocks md) = None ->
  filter (fun k => String.eqb (lower k) (lower p)) (map fst (file_blocks md)) = pre ++ [k] ->
  dict_get k (file_blocks md) = Some block ->
  In p (map path files) ->
  dict_get p (split_llm_parts md files) = Some (block_parts block).
Proof.
  intros Hnone Hf Hb Hp. unfold split_llm_parts.
  assert (Hne : block <> []).
  { pose proof (file_blocks_nonempty md) as Hn. rewrite Forall_forall in Hn.
    exact (Hn _ (dict_get_in _ _ _ Hb)). }
  assert (Hl : dict_get (lower p) (lower_keys (file_blocks md)) = Some k).
  { unfold lower_keys. rewrite lower_keys_fold, Hf, rev_app_distr. reflexivity. }
  apply (fold_by_path_get _ (per_file_step_sets (file_blocks md))); [|exact Hp].
  intros d f Hpf. unfold per_file_step. rewrite Hpf, Hnone, Hl, Hb.
  destruct block as [|x xs]; [contradiction | reflexivity].
Qed.

(** ** Splitting a block into parts *)

(** X8: a block with no [###] sub-heading line is one part, the whole block
    joined and stripped. *)
Theorem block_parts_no_subheading (key : list string) :
  Forall (fun ln => part_heading (strip ln) = false) key ->
  block_parts key = [strip (join NL key)].
Proof.
  intros H. unfold block_parts.
  assert (Hf : forall lines, Forall (fun ln => part_heading (strip ln) = false) lines ->
                 fold_left part_step lines ([], []) = ([], [])).
  { induction lines as [|ln lines IH]; intros Hl; [reflexivity|].
    inversion Hl as [|? ? Hln Hrest]; subst. simpl. unfold part_step at 1.
    rewrite Hln. apply IH, Hrest. }
  rewrite (Hf _ H). reflexivity.
Qed.

Lemma part_fold_count (lines : list string) (parts : list (list string)) (curp : list string) :
  let '(ps, c) := fold_left part_step lines (parts, curp) in
  (List.length ps + match c with [] => 0 | _ => 1 end =
   List.length parts + match curp with [] => 0 | _ => 1 end +
   List.length (filter (fun ln => part_heading (strip ln)) lines))%nat.
Proof.
  revert parts curp. induction lines as [|ln lines IH]; intros parts curp; simpl.
  - lia.
  - destruct (part_heading (strip ln)) eqn:Hh.
    + replace (part_step (parts, curp) ln)
        with (match curp with [] => parts | _ => parts ++ [curp] end, [ln])
        by (unfold part_step; rewrite Hh; reflexivity).
      specialize (IH (match curp with [] => parts | _ => parts ++ [curp] end) [ln]).
      destruct (fold_left part_step lines _) as [ps c].
      rewrite IH. simpl. destruct curp; rewrite ?length_app; simpl; lia.
    + replace (part_step (parts, curp) ln)
        with (parts, match curp with [] => [] | _ => curp ++ [ln] end)
        by (unfold part_step; rewrite Hh; reflexivity).
      specialize (IH parts (match curp with [] => [] | _ => curp ++ [ln] end)).
      destruct (fold_left part_step lines _) as [ps c].
      rewrite IH. destruct curp as [|c0 curp]; simpl; [lia|].
      destruct (curp ++ [ln]); lia.
Qed.

(** X9: a block with at least one [###] sub-heading line has exactly one part
    per sub-heading line. *)
Theorem block_parts_count (key : list string) :
  (1 <= List.length (filter (fun ln => part_heading (strip ln)) key))%nat ->
  List.length (block_parts key) = List.length (filter (fun ln => part_heading (strip ln)) key).
Proof.
  intros H. unfold block_parts.
  pose proof (part_fold_count key [] []) as Hc.
  destruct (fold_left part_step key ([], [])) as [ps c]. cbv zeta.
  simpl in Hc.
  assert (Hl : List.length (match c with [] => ps | _ => ps ++ [c] end) =
               List.length (filter (fun ln => part_heading (strip ln)) key)).
  { destruct c; rewrite ?length_app; simpl in *; lia. }
  destruct (match c with [] => ps | _ => ps ++ [c] end) as [|q qs] eqn:E.
  - simpl in Hl. lia.
  - rewrite length_map. exact Hl.
Qed.

(** ** Rule matches: every triggering line is reported, and only lines of a
    section are checked *)

Lemma static_loop_complete (path : string) (text rest : list string) (idx : Z) (k : nat)
    (line : string) (m : suggestion) :
  nth_error rest k = Some line ->
  In m (line_suggestions path text line (idx + Z.of_nat k)) ->
  In m (static_loop path text rest idx).
Proof.
  revert idx k. induction rest as [|l rest IH]; intros idx k Hn Hm.
  - destruct k; discriminate.
  - simpl. apply in_or_app. destruct k as [|k].
    + injection Hn as ->. left. rewrite Z.add_0_r in Hm. exact Hm.
    + right. apply (IH (idx + 1) k); [exact Hn|].
      replace (idx + 1 + Z.of_nat k) with (idx + Z.of_nat (S k)) by lia. exact Hm.
Qed.

Lemma static_suggestions_complete_at (path : string) (text : list string) (start : Z)
    (k : nat) (line : string) :
  nth_error text k = Some line ->
  let l := start + Z.of_nat k in
  (rule_eval line = true ->
   In (md_eval path, l, Some l) (static_suggestions_for_section path text start)) /\
  (rule_yaml text line = true ->
   In (md_yaml path, l, None) (static_suggestions_for_section path text start)) /\
  (rule_except line = true ->
   In (md_except path, l, None) (static_suggestions_for_section path text start)) /\
  (rule_open text line = true ->
   In (md_open path, l, None) (static_suggestions_for_section path text start)).
Proof.
  intros Hn l.
  repeat split; intros Hr; apply (static_loop_complete _ _ _ _ k line); try exact Hn;
    unfold line_suggestions; rewrite Hr;
    destruct (rule_eval line), (rule_yaml text line), (rule_except line), (rule_open text line);
    simpl; tauto.
Qed.

(** X10: every line of a section that triggers a check yields that check's
    match at the line's number ([start] for the first line): [eval(] with a
    range start equal to the line, the three others without one. *)
Theorem static_suggestions_complete (path : string) (text : list string) (start : Z)
    (k : nat) (line : string) :
  nth_error text k = Some line ->
  let l := start + Z.of_nat k in
  (rule_eval line = true ->
   In (md_eval path, l, Some l) (static_suggestions_for_section path text start)) /\
  (rule_yaml text line = true ->
   In (md_yaml path, l, None) (static_suggestions_for_section path text start)) /\
  (rule_except line = true ->
   In (md_except path, l, None) (static_suggestions_for_section path text start)) /\
  (rule_open text line = true ->
   In (md_open path, l, None) (static_suggestions_for_section path text start)).
Proof. apply static_suggestions_complete_at. Qed.

Lemma nth_error_py_slice {A : Type} (a b : Z) (l : list A) (k : nat) :
  nth_error (py_slice a b l) k =
  if (k <? Z.to_nat b - Z.to_nat a)%nat then nth_error l (Z.to_nat a + k) else None.
Proof. unfold py_slice. rewrite nth_error_firstn, nth_error_skipn. reflexivity. Qed.

Lemma extract_source_sections_from_one (text : string) (sec : string * Z * Z) :
  In sec (extract_source_sections text) -> 1 <= span_start sec.
Proof.
  unfold extract_source_sections. intros Hin.
  destruct (section_marks_sorted (splitlines text) 1) as [Hb _].
  destruct (section_spans (section_marks (splitlines text) 1) _) as [|sp sps] eqn:E.
  - destruct Hin as [<-|[]]. simpl. lia.
  - rewrite <- E in Hin.
    assert (Hs : In (span_start sec) (map snd (section_marks (splitlines text) 1))).
    { rewrite <- (section_spans_starts _ (Z.of_nat (List.length (splitlines text)))).
      apply in_map, Hin. }
    apply in_map_iff in Hs as [m [Hm Hin']]. rewrite Forall_forall in Hb.
    specialize (Hb m Hin'). lia.
Qed.

(** X11: every rule match of a file comes from a line inside one of the
    sections [extract_source_sections] returns: the line triggers the check
    (within that section's text), and the match is then placed on the
    candidates.  Lines outside every section are never checked. *)
Theorem static_parts_from_sections (p text : string) (anchors : list Z) (m : suggestion) :
  In m (static_parts p text anchors) ->
  exists sec md sl st line,
    In sec (extract_source_sections text) /\
    span_start sec <= sl <= span_end sec /\
    nth_error (splitlines text) (Z.to_nat (sl - 1)) = Some line /\
    m = place_static anchors (md, sl, st) /\
    let stext := py_slice (span_start sec - 1) (span_end sec) (splitlines text) in
    ((md = md_eval p /\ st = Some sl /\ rule_eval line = true) \/
     (md = md_yaml p /\ st = None /\ rule_yaml stext line = true) \/
     (md = md_except p /\ st = None /\ rule_except line = true) \/
     (md = md_open p /\ st = None /\ rule_open stext line = true)).
Proof.
  unfold static_parts. intros Hin.
  apply in_flat_map in Hin as [[[t s] e] [Hsec Hin]].
  apply in_map_iff in Hin as [[[md sl] st] [<- Hin]].
  pose proof (extract_source_sections_from_one text _ Hsec) as Hs1. simpl in Hs1.
  destruct (static_loop_origin _ _ _ _ _ Hin) as (k & line & Hk & Hsl & Hr).
  rewrite nth_error_py_slice in Hk.
  destruct (k <? Z.to_nat e - Z.to_nat (s - 1))%nat eqn:Hlt; [|discriminate].
  apply Nat.ltb_lt in Hlt.
  exists (t, s, e), md, sl, st, line. simpl.
  split; [exact Hsec|]. split; [lia|]. split.
  - replace (Z.to_nat (sl - 1)) with (Z.to_nat (s - 1) + k)%nat by lia. exact Hk.
  - split; [reflexivity | exact Hr].
Qed.

(** X12: an [eval(] line inside a section whose line number is a candidate of
    the diff gets a part at exactly that line, with a range start equal to
    the line. *)
Theorem eval_line_exact_part (f : file_item) (llm : list string) (sec : string * Z * Z)
    (sl : Z) (line : string) :
  In sec (extract_source_sections (content f)) ->
  span_start sec <= sl <= span_end sec ->
  nth_error (splitlines (content f)) (Z.to_nat (sl - 1)) = Some line ->
  rule_eval line = true ->
  In sl (diff_anchor_lines (patch f)) ->
  In (md_eval (path f), sl, Some sl) (ensure_actionable_file f llm).
Proof.
  intros Hsec Hb Hn Hr Ha.
  pose proof (extract_source_sections_from_one _ _ Hsec) as Hs1.
  destruct sec as [[t s] e]. simpl in Hb, Hs1.
  assert (Hst : In (md_eval (path f), sl, Some sl)
                  (static_parts (path f) (content f) (diff_anchor_lines (patch f)))).
  { unfold static_parts. apply in_flat_map. exists (t, s, e). split; [exact Hsec|].
    apply in_map_iff. exists (md_eval (path f), sl, Some sl). split.
    - unfold place_static.
      replace (existsb (Z.eqb sl) (diff_anchor_lines (patch f))) with true; [reflexivity|].
      symmetry. apply existsb_exists. exists sl. split; [exact Ha | apply Z.eqb_refl].
    - assert (Hk : nth_error (py_slice (s - 1) e (splitlines (content f)))
                     (Z.to_nat (sl - s)) = Some line).
      { rewrite nth_error_py_slice.
        replace (Z.to_nat (sl - s) <? Z.to_nat e - Z.to_nat (s - 1))%nat with true.
        - replace (Z.to_nat (s - 1) + Z.to_nat (sl - s))%nat with (Z.to_nat (sl - 1)) by lia.
          exact Hn.
        - symmetry. apply Nat.ltb_lt. lia. }
      destruct (static_suggestions_complete_at (path f) _ s _ _ Hk) as [He _].
      replace (s + Z.of_nat (Z.to_nat (sl - s))) with sl in He by lia.
      apply He, Hr. }
  unfold ensure_actionable_file.
  destruct (map _ llm ++ static_parts (path f) (content f) (diff_anchor_lines (patch f)))
    as [|m0 ms] eqn:E.
  - assert (Hnil : In (md_eval (path f), sl, Some sl)
                     (map (llm_part (splitlines (content f)) (diff_anchor_lines (patch f))) llm ++
                      static_parts (path f) (content f) (diff_anchor_lines (patch f)))).
    { apply in_or_app. right. exact Hst. }
    rewrite E in Hnil. contradiction.
  - rewrite <- E. apply in_or_app. right. exact Hst.
Qed.

(** ** How a marked file is cut into sections *)

Lemma section_marks_tag (lines : list string) (j : Z) (t : string) (i : Z) :
  In (t, i) (section_marks lines j) ->
  exists line, nth_error lines (Z.to_nat (i - j)) = Some line /\ section_tag line = Some t.
Proof.
  revert j. induction lines as [|line lines IH]; intros j Hin; [contradiction|].
  simpl in Hin.
  assert (Hrest : In (t, i) (section_marks lines (j + 1)) ->
                  exists l, nth_error (line :: lines) (Z.to_nat (i - j)) = Some l /\
                            section_tag l = Some t).
  { intros H. destruct (section_marks_sorted lines (j + 1)) as [Hb _].
    rewrite Forall_forall in Hb. specialize (Hb _ H). simpl in Hb.
    destruct (IH (j + 1) H) as [l [Hl Ht]]. exists l. split; [|exact Ht].
    replace (Z.to_nat (i - j)) with (S (Z.to_nat (i - (j + 1)))) by lia. exact Hl. }
  destruct (section_tag line) as [title|] eqn:Et.
  - destruct Hin as [Heq|H]; [|exact (Hrest H)].
    injection Heq as <- <-. exists line. rewrite Z.sub_diag. split; [reflexivity | exact Et].
  - exact (Hrest Hin).
Qed.

Lemma section_spans_in (marks : list (string * Z)) (n : Z) (t : string) (s e : Z) :
  In (t, s, e) (section_spans marks n) -> In (t, s) marks.
Proof.
  induction marks as [|[t' s'] rest IH]; simpl; [tauto|].
  intros [H|H]; [left; congruence | right; exact (IH H)].
Qed.

Lemma section_spans_adjacent (marks : list (string * Z)) (n : Z)
    (pre post : list (string * Z * Z)) (a b : string * Z * Z) :
  section_spans marks n = pre ++ a :: b :: post -> span_end a + 1 = span_start b.
Proof.
  revert marks. induction pre as [|x pre IH]; intros marks E.
  - destruct marks as [|[t s] rest]; [discriminate|]. simpl in E.
    destruct rest as [|[t' s'] rest']; simpl in E; [discriminate|].
    injection E as <- <- _. simpl. lia.
  - destruct marks as [|[t s] rest]; [discriminate|]. simpl in E.
    injection E as _ E. exact (IH rest E).
Qed.

Lemma section_spans_last (marks : list (string * Z)) (n : Z) (d : string * Z * Z) :
  marks <> [] -> span_end (last (section_spans marks n) d) = n.
Proof.
  induction marks as [|[t s] rest IH]; intros Hne; [contradiction|].
  destruct rest as [|m rest'].
  - reflexivity.
  - specialize (IH ltac:(discriminate)).
    change (section_spans ((t, s) :: m :: rest') n)
      with ((t, s, match m :: rest' with (_, next) :: _ => next - 1 | [] => n end)
              :: section_spans (m :: rest') n).
    destruct (section_spans (m :: rest') n) as [|y ys] eqn:Ey.
    + destruct m; discriminate.
    + exact IH.
Qed.

(** X13: in a file with at least one section marker, every section starts on
    its marker line, whose tag is the section's title; each section ends on
    the line just before the next one starts; and the last one ends on the
    file's last line.  Together: the sections cover every line from the first
    marker to the end of the file, without gaps. *)
Theorem extract_source_sections_layout (text : string) :
  section_marks (splitlines text) 1 <> [] ->
  (forall t s e, In (t, s, e) (extract_source_sections text) ->
     exists line, nth_error (splitlines text) (Z.to_nat (s - 1)) = Some line /\
                  section_tag line = Some t) /\
  (forall pre post a b, extract_source_sections text = pre ++ a :: b :: post ->
     span_end a + 1 = span_start b) /\
  (forall d, span_end (last (extract_source_sections text) d) =
             Z.of_nat (List.length (splitlines text))).
Proof.
  intros Hne.
  assert (E : extract_source_sections text =
              section_spans (section_marks (splitlines text) 1)
                            (Z.of_nat (List.length (splitlines text)))).
  { unfold extract_source_sections.
    destruct (section_marks (splitlines text) 1) as [|[t s] rest]; [contradiction | reflexivity]. }
  rewrite E. split; [|split].
  - intros t s e Hin. apply section_spans_in in Hin. exact (section_marks_tag _ _ _ _ Hin).
  - intros pre post a b. apply section_spans_adjacent.
  - intros d. apply section_spans_last, Hne.
Qed.

(** ** Candidate numbering inside one hunk *)

Lemma startswith_nil (s : string) : startswith s EmptyString = true.
Proof. reflexivity. Qed.

Lemma startswith_cons (ch d : ascii) (r p : string) :
  startswith (String ch r) (String d p) = Ascii.eqb d ch && startswith r p.
Proof. unfold startswith. simpl. destruct (Ascii.eqb d ch); reflexivity. Qed.





(** ** The batched driver's anchor and the candidate list *)

Lemma first_char_in_diff_marks (ch : ascii) (r : string) :
  first_char_in (String ch r) "+-@" = Ascii.eqb "+" ch || Ascii.eqb "-" ch || Ascii.eqb "@" ch.
Proof.
  change (first_char_in (String ch r) "+-@") with
    (startswith "+-@" (String ch EmptyString) ||
     (startswith "-@" (String ch EmptyString) ||
      (startswith "@" (String ch EmptyString) || (false || false)))).
  rewrite !startswith_cons, !startswith_nil, !(Ascii.eqb_sym ch).
  destruct (Ascii.eqb "+" ch), (Ascii.eqb "-" ch), (Ascii.eqb "@" ch); reflexivity.
Qed.

Lemma classify_not_added (ln : string) :
  hunk_header ln = None -> ln <> EmptyString ->
  (startswith ln "@" = true -> startswith ln "@@" = true) ->
  (startswith ln "+" && negb (startswith ln "+++")) = false ->
  classify ln = if negb (startswith ln "-") && negb (startswith ln "@@") &&
                   negb (startswith ln "+++") && negb (startswith ln "---")
                then CtxLine else OtherLine.
Proof.
  intros Hh Hne Hat Hadd. unfold classify. rewrite Hh, Hadd.
  destruct ln as [|ch r]; [contradiction|]. clear Hne Hh.
  rewrite first_char_in_diff_marks.
  change (String.eqb (String ch r) EmptyString) with false.
  rewrite !startswith_cons, ?startswith_nil in *.
  destruct (Ascii.eqb "+" ch) eqn:E1.
  { apply Ascii.eqb_eq in E1. subst ch. cbn [andb negb] in *. rewrite Hadd. reflexivity. }
  destruct (Ascii.eqb "-" ch) eqn:E2.
  { apply Ascii.eqb_eq in E2. subst ch. reflexivity. }
  destruct (Ascii.eqb "@" ch) eqn:E3.
  { apply Ascii.eqb_eq in E3. subst ch. cbn [andb] in Hat.
    change (Ascii.eqb "@" "@") with true. cbn [andb negb].
    rewrite (Hat eq_refl). reflexivity. }
  destruct (Ascii.eqb " " ch) eqn:E4.
  - apply Ascii.eqb_eq in E4. subst ch. reflexivity.
  - reflexivity.
Qed.

Lemma trace_fold_prefix (lines : list string) (tr : list (confidence * Z)) (h : Z) :
  exists tr', fst (fold_left trace_step lines (tr, h)) = tr ++ tr'.
Proof.
  revert tr h. induction lines as [|ln lines IH]; intros tr h; simpl.
  - exists []. rewrite app_nil_r. reflexivity.
  - destruct (classify ln) as [h'| | |].
    + apply IH.
    + destruct (IH (tr ++ [(ADDED, h)]) (h + 1)) as [tr' ->].
      exists ((ADDED, h) :: tr'). rewrite <- app_assoc. reflexivity.
    + destruct (IH (tr ++ [(CONTEXT, h)]) (h + 1)) as [tr' ->].
      exists ((CONTEXT, h) :: tr'). rewrite <- app_assoc. reflexivity.
    + apply IH.
Qed.

Lemma first_added_aux_trace (lines : list string) (tr : list (confidence * Z)) (h a : Z)
    (rest : list Z) :
  Forall (fun ln => ln <> EmptyString /\ (startswith ln "@" = true -> startswith ln "@@" = true))
         lines ->
  lines_of ADDED tr = [] ->
  lines_of ADDED (fst (fold_left trace_step lines (tr, h))) = a :: rest ->
  first_added_aux lines h = a.
Proof.
  revert tr h. induction lines as [|ln lines IH]; intros tr h Hl Htr Ha.
  - simpl in Ha. rewrite Htr in Ha. discriminate.
  - inversion Hl as [|? ? [Hne Hat] Hrest]; subst. simpl in Ha |- *.
    destruct (hunk_header ln) as [h'|] eqn:Hh.
    + assert (Hc : classify ln = HunkHeader h') by (unfold classify; rewrite Hh; reflexivity).
      rewrite Hc in Ha.
      exact (IH tr h' Hrest Htr Ha).
    + destruct (startswith ln "+" && negb (startswith ln "+++")) eqn:Hadd.
      * assert (Hc : classify ln = AddLine) by (unfold classify; rewrite Hh, Hadd; reflexivity).
        rewrite Hc in Ha.
        destruct (trace_fold_prefix lines (tr ++ [(ADDED, h)]) (h + 1)) as [tr' E].
        rewrite E, !lines_of_app, Htr in Ha. simpl in Ha. congruence.
      * rewrite (classify_not_added ln Hh Hne Hat Hadd) in Ha.
        destruct (negb (startswith ln "-") && negb (startswith ln "@@") &&
                  negb (startswith ln "+++") && negb (startswith ln "---")).
        -- apply (IH (tr ++ [(CONTEXT, h)])); [exact Hrest | | exact Ha].
           rewrite lines_of_app, Htr. reflexivity.
        -- exact (IH tr h Hrest Htr Ha).
Qed.

(** X15: on a patch with no empty line and no line starting with ["@"] but
    not ["@@"], the batched driver's [first_added_line_from_patch] is the
    first added-line candidate of [diff_anchor_lines] (the first [ADDED]
    entry of the tagged trace). *)
Theorem first_added_line_is_first_added_candidate (patch : string) (a : Z) (rest : list Z) :
  Forall (fun ln => ln <> EmptyString /\ (startswith ln "@" = true -> startswith ln "@@" = true))
         (splitlines patch) ->
  lines_of ADDED (diff_trace patch) = a :: rest ->
  first_added_line_from_patch patch = a.
Proof.
  intros Hl Ha. unfold first_added_line_from_patch.
  destruct (String.eqb_spec patch EmptyString) as [->|_]; [discriminate|].
  exact (first_added_aux_trace _ [] 1 a rest Hl eq_refl Ha).
Qed.

(** ** What the run posts inline *)

Lemma ensure_actionable_parts_entries (files : list file_item)
    (per_file_from_llm : list (string * list string)) (k : string) (v : list suggestion) :
  In (k, v) (ensure_actionable_parts files per_file_from_llm) ->
  exists f llm, In f files /\ path f = k /\ v = ensure_actionable_file f llm.
Proof.
  unfold ensure_actionable_parts.
  assert (Hgen : forall fs d,
             incl fs files ->
             (forall k v, In (k, v) d ->
                exists f llm, In f files /\ path f = k /\ v = ensure_actionable_file f llm) ->
             forall k v,
             In (k, v) (fold_left (fun out f =>
               dict_set (path f) (ensure_actionable_file f
                 (match dict_get (path f) per_file_from_llm with Some l => l | None => [] end)) out)
               fs d) ->
             exists f llm, In f files /\ path f = k /\ v = ensure_actionable_file f llm).
  { induction fs as [|f fs IH]; intros d Hincl Hd; simpl; [exact Hd|].
    apply IH; [intros x Hx; apply Hincl; right; exact Hx|].
    intros k' v' Hin. apply dict_set_in in Hin as [Heq|Hin]; [|exact (Hd _ _ Hin)].
    injection Heq as -> ->. eexists f, _. split; [apply Hincl; left; reflexivity|].
    split; reflexivity. }
  apply Hgen; [intros x Hx; exact Hx | intros k' v' []].
Qed.

Lemma review_bot_run_inline_origin (files : list file_item) (review_md conf_url : string)
    (accepted : nat -> bool) (p : string) (line : Z) (start_line : option Z) (body : string) :
  In (InlineComment p line start_line body) (review_bot_run files review_md conf_url accepted) ->
  exists f, In f files /\ path f = p /\ In line (diff_anchor_lines (patch f)) /\
            (start_line = None \/ start_line = Some line) /\
            exists full, has_suggestion full = true /\ body = take BODY_CAP full.
Proof.
  unfold review_bot_run. destruct files as [|f0 fs].
  { intros [H|[]]. discriminate. }
  set (files := f0 :: fs).
  intros [H|Hin]; [discriminate|].
  unfold post_phase, post_inline_all in Hin. rewrite post_fold in Hin. simpl in Hin.
  assert (Hin' : In (InlineComment p line start_line body)
                   (map (fun ps => let '(p, s) := ps in inline_request p s)
                        (posting_order (ensure_actionable_parts files
                                          (split_llm_parts review_md files))))).
  { destruct (Nat.eqb _ 0) in Hin.
    - apply in_app_or in Hin as [Hin|[H|[]]]; [exact Hin | discriminate].
    - exact Hin. }
  clear Hin.
  apply in_map_iff in Hin' as [[p' s] [Hreq Hps]].
  unfold posting_order in Hps. apply in_flat_map in Hps as [[k parts] [Hkp Hs]].
  apply in_map_iff in Hs as [s' [Heq Hs']]. injection Heq as <- <-.
  destruct (ensure_actionable_parts_entries _ _ _ _ Hkp) as (f & llm & Hf & Hpath & ->).
  pose proof (ensure_actionable_file_parts_ok f llm s' Hs') as Hok.
  destruct s' as [[md l] st]. simpl in Hok. destruct Hok as (Hsug & Hl & Hst).
  simpl in Hreq. injection Hreq as <- <- Hst' <-.
  exists f. split; [exact Hf|]. split; [exact Hpath|]. split; [exact Hl|]. split.
  - destruct Hst as [->| ->]; [left; symmetry; exact Hst'|].
    rewrite Z.leb_refl in Hst'. right. symmetry. exact Hst'.
  - exists md. split; [exact Hsug | reflexivity].
Qed.

(** X16: every inline comment a run posts is on a path of a changed file, at
    a line of that file's candidate list, with no range start or one equal
    to the line, and its body is an actionable part (one holding a
    [```suggestion] block) cut to 65,000 characters. *)
Theorem review_bot_run_inline_on_candidates (files : list file_item) (review_md conf_url : string)
    (accepted : nat -> bool) (p : string) (line : Z) (start_line : option Z) (body : string) :
  In (InlineComment p line start_line body) (review_bot_run files review_md conf_url accepted) ->
  exists f, In f files /\ path f = p /\ In line (diff_anchor_lines (patch f)) /\
            (start_line = None \/ start_line = Some line) /\
            exists full, has_suggestion full = true /\ body = take BODY_CAP full.
Proof. apply review_bot_run_inline_origin. Qed.


(** ** The fabricated suggestion line *)





Lemma contains_app_r (sub x y : string) : contains sub y = true -> contains sub (x +s+ y) = true.
Proof.
  intros H. induction x as [|c x IH]; [exact H|].
  change (String c x +s+ y) with (String c (x +s+ y)).
  change (contains sub (String c (x +s+ y)))
    with (startswith (String c (x +s+ y)) sub || contains sub (x +s+ y)).
  rewrite IH. apply orb_true_r.
Qed.


(** ** The changed files and the prompt *)

Lemma list_changed_files_in (meta : list gh_file) (fetch : string -> string)
    (f : file_item) (st : string) :
  In (f, st) (list_changed_files meta fetch) ->
  exists g, In g meta /\ endswith (filename g) ".py" = true /\ st = gh_status g /\
            f = {| path := filename g;
                   patch := match gh_patch g with Some p => p | None => EmptyString end;
                   content := fetch (filename g) |}.
Proof.
  unfold list_changed_files. intros Hin. apply in_flat_map in Hin as [g [Hg Hin]].
  destruct (endswith (filename g) ".py") eqn:Hpy; [|contradiction].
  destruct Hin as [Heq|[]]. injection Heq as <- <-. exists g. repeat split; assumption.
Qed.

(** X18: only Python files are reviewed: every inline comment of a run on the
    files [list_changed_files] keeps is on a path ending in [".py"] that names
    an entry of the pull request's file list, at a candidate line of that
    entry's patch ([""] when it has none). *)
Theorem review_bot_run_python_files_only (meta : list gh_file) (fetch : string -> string)
    (review_md conf_url : string) (accepted : nat -> bool)
    (p : string) (line : Z) (start_line : option Z) (body : string) :
  In (InlineComment p line start_line body)
     (review_bot_run (map fst (list_changed_files meta fetch)) review_md conf_url accepted) ->
  endswith p ".py" = true /\
  exists g, In g meta /\ filename g = p /\
            In line (diff_anchor_lines (match gh_patch g with Some x => x | None => EmptyString end)).
Proof.
  intros Hin.
  destruct (review_bot_run_inline_origin _ _ _ _ _ _ _ _ Hin) as (f & Hf & Hp & Hl & _).
  apply in_map_iff in Hf as [[f' st] [Hf' Hin']]. simpl in Hf'. subst f'.
  destruct (list_changed_files_in _ _ _ _ Hin') as (g & Hg & Hpy & _ & ->).
  simpl in Hp, Hl. subst p. split; [exact Hpy|]. exists g. repeat split; assumption.
Qed.

Ltac contains_piece :=
  repeat rewrite append_assoc_str;
  repeat first [ exact (contains_middle _ EmptyString _) | apply contains_app_r ].

(** X19: the prompt presents every file it is given: its heading line
    ["## path (status)"], the first 20,000 characters of its patch when the
    patch is not empty, and the first 20,000 characters of its content when
    the content is not empty. *)
Theorem build_prompt_presents_files (spec_text : string) (files : list (file_item * string))
    (f : file_item) (status : string) :
  In (f, status) files ->
  let prompt := build_prompt spec_text files in
  contains ("## " +s+ path f +s+ " (" +s+ status +s+ ")" +s+ NL) prompt = true /\
  (patch f <> EmptyString -> contains (take PROMPT_CAP (patch f)) prompt = true) /\
  (content f <> EmptyString -> contains (take PROMPT_CAP (content f)) prompt = true).
Proof.
  intros Hin prompt.
  assert (Hel : forall e, In e (prompt_file_parts f status) ->
                  exists x y, prompt = x +s+ e +s+ y).
  { intros e He. apply join_in. apply in_or_app. right. apply in_or_app. left.
    apply in_flat_map. exists (f, status). split; [exact Hin | exact He]. }
  split; [|split].
  - destruct (Hel ("## " +s+ path f +s+ " (" +s+ status +s+ ")" +s+ NL)) as (x & y & ->).
    + left. reflexivity.
    + apply contains_middle.
  - intros Hp. apply String.eqb_neq in Hp.
    destruct (Hel ("```diff" +s+ NL +s+ take PROMPT_CAP (patch f) +s+ NL +s+ "```")) as (x & y & ->).
    + unfold prompt_file_parts. rewrite Hp. right. left. reflexivity.
    + contains_piece.
  - intros Hc. apply String.eqb_neq in Hc.
    destruct (Hel (NL +s+ "<current file snapshot: " +s+ path f +s+ ">" +s+ NL +s+ "```python" +s+
                   NL +s+ take PROMPT_CAP (content f) +s+ NL +s+ "```" +s+ NL)) as (x & y & ->).
    + unfold prompt_file_parts. rewrite Hc. apply in_or_app. right. apply in_or_app. right.
      left. reflexivity.
    + contains_piece.
Qed.

(** ** Witnesses of the further properties *)

Lemma ensure_actionable_parts_actionable_witness :
  In (md_eval "a.py", 1, Some 1) (ensure_actionable_file eval_file ["note"]) /\
  has_suggestion (md_eval "a.py") = true.
Proof.
  assert (H : In (md_eval "a.py", 1, Some 1) (ensure_actionable_file eval_file ["note"]))
    by (vm_compute; right; left; reflexivity).
  split; [exact H | exact (ensure_actionable_parts_actionable eval_file ["note"] _ _ _ H)].
Defined.

Lemma ensure_actionable_parts_on_candidates_witness :
  In (md_eval "a.py", 1, Some 1) (ensure_actionable_file eval_file ["note"]) /\
  In 1 (diff_anchor_lines (patch eval_file)).
Proof.
  assert (H : In (md_eval "a.py", 1, Some 1) (ensure_actionable_file eval_file ["note"]))
    by (vm_compute; right; left; reflexivity).
  split; [exact H | exact (ensure_actionable_parts_on_candidates eval_file ["note"] _ _ _ H)].
Defined.

Lemma ensure_actionable_parts_range_start_witness :
  In (md_eval "a.py", 1, Some 1) (ensure_actionable_file eval_file ["note"]) /\
  (Some 1 = None \/ Some 1 = Some 1).
Proof.
  assert (H : In (md_eval "a.py", 1, Some 1) (ensure_actionable_file eval_file ["note"]))
    by (vm_compute; right; left; reflexivity).
  split; [exact H | exact (ensure_actionable_parts_range_start eval_file ["note"] _ _ _ H)].
Defined.

Lemma split_llm_parts_no_heading_witness :
  dict_get "a.py" (split_llm_parts "no headings here" [eval_file]) =
  Some [placeholder_part "a.py"].
Proof.
  apply split_llm_parts_no_heading; [vm_compute; repeat constructor | left; reflexivity].
Defined.

Lemma split_llm_parts_exact_block_witness :
  dict_get "a.py" (split_llm_parts intro_then_part_doc [eval_file]) =
  Some (block_parts ["## a.py"; "intro"; "### P1"; "body"]).
Proof.
  apply split_llm_parts_exact_block; [vm_compute; reflexivity | left; reflexivity].
Defined.

Lemma split_llm_parts_case_insensitive_witness :
  dict_get "a.py" (split_llm_parts mixed_case_doc [eval_file]) =
  Some (block_parts ["## A.py"; "text"]).
Proof.
  apply (split_llm_parts_case_insensitive mixed_case_doc [eval_file] "a.py" [] "A.py");
    [vm_compute; reflexivity | vm_compute; reflexivity | vm_compute; reflexivity |
     left; reflexivity].
Defined.

Lemma block_parts_no_subheading_witness :
  block_parts ["## a.py"; "text"] = [strip (join NL ["## a.py"; "text"])].
Proof. apply block_parts_no_subheading. vm_compute. repeat constructor. Defined.

Lemma block_parts_count_witness :
  List.length (block_parts ["## a.py"; "### P1"; "x"; "### P2"]) = 2%nat.
Proof. apply (block_parts_count ["## a.py"; "### P1"; "x"; "### P2"]). vm_compute. lia. Defined.

Lemma static_suggestions_complete_witness :
  In (md_eval "a.py", 1, Some 1) (static_suggestions_for_section "a.py" ["x = eval(s)"] 1).
Proof.
  pose proof (static_suggestions_complete "a.py" ["x = eval(s)"] 1 0 "x = eval(s)" eq_refl) as H.
  cbv zeta in H. destruct H as [H _]. exact (H eq_refl).
Defined.

Lemma static_parts_from_sections_witness :
  In (md_eval "a.py", 1, Some 1) (static_parts "a.py" (content eval_file) [1; 2]) /\
  exists sec, In sec (extract_source_sections (content eval_file)).
Proof.
  assert (H : In (md_eval "a.py", 1, Some 1) (static_parts "a.py" (content eval_file) [1; 2]))
    by (vm_compute; left; reflexivity).
  split; [exact H|].
  destruct (static_parts_from_sections _ _ _ _ H) as (sec & _ & _ & _ & _ & Hsec & _).
  exists sec. exact Hsec.
Defined.

Lemma eval_line_exact_part_witness :
  In (md_eval "a.py", 1, Some 1) (ensure_actionable_file eval_file []).
Proof.
  apply (eval_line_exact_part eval_file [] ("entire-file", 1, 2) 1 "x = eval(s)").
  - vm_compute. left. reflexivity.
  - simpl. lia.
  - reflexivity.
  - reflexivity.
  - vm_compute. left. reflexivity.
Defined.

Lemma extract_source_sections_layout_witness :
  span_end (last (extract_source_sections two_marker_text) ("", 0, 0)) = 5.
Proof.
  destruct (extract_source_sections_layout two_marker_text) as (_ & _ & H).
  - vm_compute. discriminate.
  - exact (H ("", 0, 0)).
Defined.


Lemma first_added_line_is_first_added_candidate_witness :
  first_added_line_from_patch (patch two_candidate_file) = 2.
Proof.
  apply (first_added_line_is_first_added_candidate _ 2 []).
  - apply Forall_forall. intros ln Hin. vm_compute in Hin.
    repeat destruct Hin as [<-|Hin]; try contradiction;
      (split; [discriminate | intros H; vm_compute in H |- *; first [reflexivity | discriminate]]).
  - vm_compute. reflexivity.
Defined.

Lemma review_bot_run_inline_on_candidates_witness :
  exists f, In f [eval_file] /\ path f = "a.py".
Proof.
  destruct (review_bot_run_inline_on_candidates [eval_file] EmptyString EmptyString (fun _ => true)
              "a.py" 1 (Some 1) (take BODY_CAP (md_eval "a.py")))
    as (f & Hf & Hp & _).
  - vm_compute. repeat first [left; reflexivity | right].
  - exists f. split; assumption.
Defined.


Lemma review_bot_run_python_files_only_witness :
  endswith "a.py" ".py" = true.
Proof.
  destruct (review_bot_run_python_files_only sample_meta sample_fetch EmptyString EmptyString
              (fun _ => true) "a.py" 1 (Some 1) (take BODY_CAP (md_eval "a.py")))
    as [H _].
  - vm_compute. repeat first [left; reflexivity | right].
  - exact H.
Defined.

Lemma build_prompt_presents_files_witness :
  contains (take PROMPT_CAP (patch eval_file)) (build_prompt "spec" [(eval_file, "added")]) = true.
Proof.
  destruct (build_prompt_presents_files "spec" [(eval_file, "added")] eval_file "added")
    as (_ & H & _).
  - left. reflexivity.
  - apply H. discriminate.
Defined.
